(** * Dataverse CLI: a shallow embedding of the API client, the client
    factory and the flow-listing commands.

    Sources modelled:
    - src/dataverse_cli/config.py   (Config, get_config)
    - src/dataverse_cli/client.py   (DataverseClient, _get_*_token,
                                     get_client, reset_client)
    - src/dataverse_cli/commands/flow.py      (list_flows)
    - src/dataverse_cli/commands/solution.py  (list_solution_flows)

    The HTTP transport ([requests.Session]), the JSON decoder, the identity
    provider (MSAL) and the Dataverse endpoints seen by the commands are
    oracles: Section variables that become parameters of every definition
    using them. JSON numbers are modelled as integers only. *)

From Stdlib Require Import String Ascii ZArith List Bool Lia.
From Stdlib Require Import Numbers.DecimalString.
Import ListNotations.
Open Scope string_scope.
Open Scope bool_scope.
Set Warnings "-register-all".

(* ------------------------------------------------------------------ *)
(** ** Python string helpers *)

Module Py.

(** [str.lower()] on the ASCII range. *)
Definition ascii_lower (c : ascii) : ascii :=
  let n := nat_of_ascii c in
  if (65 <=? n)%nat && (n <=? 90)%nat then ascii_of_nat (n + 32) else c.

Fixpoint lower (s : string) : string :=
  match s with
  | EmptyString => EmptyString
  | String c r => String (ascii_lower c) (lower r)
  end.

(** [str(n)] for a Python int. *)
Definition str_of_Z (z : Z) : string := NilEmpty.string_of_int (Z.to_int z).

(** [sub in s] for strings. *)
Fixpoint contains (sub s : string) : bool :=
  prefix sub s ||
  match s with
  | EmptyString => false
  | String _ r => contains sub r
  end.

(** [s.rstrip(c)] for a one-character argument. *)
Fixpoint rstrip (c : ascii) (s : string) : string :=
  match s with
  | EmptyString => EmptyString
  | String a r =>
      let r' := rstrip c r in
      if String.eqb r' "" && Ascii.eqb a c then "" else String a r'
  end.

(** [s.split(c)] for a one-character separator: never empty. *)
Fixpoint split (c : ascii) (s : string) : list string :=
  match s with
  | EmptyString => [""]
  | String a r =>
      let parts := split c r in
      if Ascii.eqb a c then "" :: parts
      else match parts with
           | [] => [String a ""]
           | p :: ps => String a p :: ps
           end
  end.

(** [sep.join(l)]. *)
Fixpoint join (sep : string) (l : list string) : string :=
  match l with
  | [] => ""
  | [x] => x
  | x :: r => x ++ sep ++ join sep r
  end.

(** Truthiness of an [Optional[str]] read from the environment. *)
Definition truthy (o : option string) : bool :=
  match o with
  | Some s => negb (String.eqb s "")
  | None => false
  end.

(** [f"{x}"] for an [Optional[str]]. *)
Definition fmt_opt (o : option string) : string :=
  match o with Some s => s | None => "None" end.

(** Lookup in a plain [dict[str, str]] (first binding). *)
Fixpoint assoc {A} (k : string) (d : list (string * A)) : option A :=
  match d with
  | [] => None
  | (k', v) :: r => if String.eqb k k' then Some v else assoc k r
  end.

End Py.

(* ------------------------------------------------------------------ *)
(** ** JSON values as Python objects *)

Module Json.

Inductive json : Type :=
| JNull
| JBool (b : bool)
| JNum (n : Z)
| JStr (s : string)
| JArr (l : list json)
| JObj (d : list (string * json)).

(** [bool(v)] *)
Definition truthy (v : json) : bool :=
  match v with
  | JNull => false
  | JBool b => b
  | JNum n => negb (Z.eqb n 0)
  | JStr s => negb (String.eqb s "")
  | JArr l => negb (Nat.eqb (length l) 0)
  | JObj d => negb (Nat.eqb (length d) 0)
  end.

(** [d.get(k)] on a dict: [None] (here [JNull]) when absent. *)
Definition get (d : list (string * json)) (k : string) : json :=
  match Py.assoc k d with Some v => v | None => JNull end.

(** [d[k] = v]: replaces the binding in place, else appends. *)
Fixpoint set (d : list (string * json)) (k : string) (v : json)
  : list (string * json) :=
  match d with
  | [] => [(k, v)]
  | (k', v') :: r =>
      if String.eqb k k' then (k', v) :: r else (k', v') :: set r k v
  end.

(** Python [==] on decoded JSON ([True == 1], dicts compared as maps). *)
Fixpoint py_eq (a b : json) : bool :=
  match a, b with
  | JNull, JNull => true
  | JBool x, JBool y => Bool.eqb x y
  | JNum x, JNum y => Z.eqb x y
  | JBool x, JNum y | JNum y, JBool x => Z.eqb (if x then 1 else 0)%Z y
  | JStr x, JStr y => String.eqb x y
  | JArr xs, JArr ys =>
      (fix go (xs ys : list json) : bool :=
         match xs, ys with
         | [], [] => true
         | x :: xs', y :: ys' => py_eq x y && go xs' ys'
         | _, _ => false
         end) xs ys
  | JObj xs, JObj ys =>
      Nat.eqb (length xs) (length ys) &&
      (fix go (xs : list (string * json)) : bool :=
         match xs with
         | [] => true
         | (k, v) :: xs' =>
             match Py.assoc k ys with
             | Some w => py_eq v w
             | None => false
             end && go xs'
         end) xs
  | _, _ => false
  end.

(** [repr] of a string, without escaping. *)
Definition repr_str (s : string) : string := "'" ++ s ++ "'".

Fixpoint repr (v : json) : string :=
  match v with
  | JNull => "None"
  | JBool true => "True"
  | JBool false => "False"
  | JNum n => Py.str_of_Z n
  | JStr s => repr_str s
  | JArr l => "[" ++ Py.join ", " (map repr l) ++ "]"
  | JObj d =>
      "{" ++ Py.join ", " (map (fun '(k, x) => repr_str k ++ ": " ++ repr x) d)
      ++ "}"
  end.

(** [f"{v}"], i.e. [str(v)]. *)
Definition str (v : json) : string :=
  match v with
  | JStr s => s
  | _ => repr v
  end.

End Json.
Import Json.

(** Exceptions that reach the callers. *)
Inductive exn : Type :=
| ClientError (msg : string)
| PyError (kind msg : string).

(** [str(e)] *)
Definition exn_str (e : exn) : string :=
  match e with ClientError m => m | PyError _ m => m end.

(* ------------------------------------------------------------------ *)
(** ** config.py *)

Module Cfg.

(** [Config]: every field is [os.getenv(...)], i.e. [Optional[str]]. *)
Record Config : Type := mkConfig {
  dataverse_url : option string;
  environment_id : option string;
  client_id : option string;
  client_secret : option string;
  tenant_id : option string;
  username : option string;
  password : option string;
  access_token : option string
}.

(** The process environment after [load_dotenv()]. *)
Definition env := list (string * string).

Definition getenv (e : env) (k : string) : option string := Py.assoc k e.

(** [Config.__init__] *)
Definition from_env (e : env) : Config :=
  {| dataverse_url := getenv e "DATAVERSE_URL";
     environment_id := getenv e "DATAVERSE_ENVIRONMENT_ID";
     client_id := getenv e "DATAVERSE_CLIENT_ID";
     client_secret := getenv e "DATAVERSE_CLIENT_SECRET";
     tenant_id := getenv e "DATAVERSE_TENANT_ID";
     username := getenv e "DATAVERSE_USERNAME";
     password := getenv e "DATAVERSE_PASSWORD";
     access_token := getenv e "DATAVERSE_ACCESS_TOKEN" |}.

Definition has_service_principal_auth (c : Config) : bool :=
  forallb Py.truthy
    [dataverse_url c; client_id c; client_secret c; tenant_id c].

Definition has_user_auth (c : Config) : bool :=
  forallb Py.truthy
    [dataverse_url c; client_id c; tenant_id c; username c; password c].

(** [bool(self.access_token and self.dataverse_url)] *)
Definition has_token_auth (c : Config) : bool :=
  Py.truthy (access_token c) && Py.truthy (dataverse_url c).

Definition get_missing_credentials (c : Config) : list string :=
  if Py.truthy (access_token c) && Py.truthy (dataverse_url c) then []
  else
    (if negb (Py.truthy (dataverse_url c)) then ["DATAVERSE_URL"] else []) ++
    (if negb (Py.truthy (client_id c)) then ["DATAVERSE_CLIENT_ID"] else []) ++
    (if negb (Py.truthy (client_secret c)) then ["DATAVERSE_CLIENT_SECRET"] else []) ++
    (if negb (Py.truthy (tenant_id c)) then ["DATAVERSE_TENANT_ID"] else []).

(** [get_auth_scope]: [ValueError] when the URL is not configured. *)
Definition get_auth_scope (c : Config) : exn + string :=
  if negb (Py.truthy (dataverse_url c))
  then inl (PyError "ValueError" "DATAVERSE_URL not configured")
  else inr (Py.fmt_opt (dataverse_url c) ++ "/.default").

End Cfg.

(* ------------------------------------------------------------------ *)
(** ** HTTP as seen through [requests] *)

Module Http.

(** [CaseInsensitiveDict] of headers, in insertion order. *)
Definition headers := list (string * string).

Fixpoint hget (h : headers) (k : string) : option string :=
  match h with
  | [] => None
  | (k', v) :: r =>
      if String.eqb (Py.lower k) (Py.lower k') then Some v else hget r k
  end.

(** [h[k] = v]: an existing key (any case) keeps its position. *)
Fixpoint hset (h : headers) (k v : string) : headers :=
  match h with
  | [] => [(k, v)]
  | (k', v') :: r =>
      if String.eqb (Py.lower k) (Py.lower k') then (k, v) :: r
      else (k', v') :: hset r k v
  end.

(** [h.update(d)] *)
Definition hupdate (h : headers) (d : headers) : headers :=
  fold_left (fun acc '(k, v) => hset acc k v) d h.

Record request : Type := mkRequest {
  method : string;
  url : string;
  params : option (list (string * string));
  req_headers : headers;
  body : option json
}.

Record response : Type := mkResponse {
  status_code : Z;
  text : string;
  resp_headers : headers
}.

(** What [session.request] yields: a response, or a
    [requests.exceptions.RequestException] with its message. *)
Inductive transport : Type :=
| Resp (r : response)
| Fail (msg : string).

(** [response.raise_for_status()] raises [HTTPError] exactly for
    [400 <= status_code < 600]. *)
Definition raises_for_status (r : response) : bool :=
  (400 <=? status_code r)%Z && (status_code r <? 600)%Z.

End Http.
Import Http.

(* ------------------------------------------------------------------ *)
(** ** client.py: [DataverseClient] *)

Module Dv.

Record DataverseClient : Type := mkClient {
  dataverse_url : string;
  access_token : string;
  api_base : string;
  session_headers : headers
}.

(** [requests.Session()] starts from [requests.utils.default_headers()]:
    User-Agent, Accept-Encoding, Accept and Connection, in this order. The
    User-Agent names the installed requests version and Accept-Encoding the
    decoders urllib3 finds; the values are those of requests 2.32.3 without
    brotli or zstandard. *)
Definition session_default_headers : headers :=
  [("User-Agent", "python-requests/2.32.3"); ("Accept-Encoding", "gzip, deflate");
   ("Accept", "*/*"); ("Connection", "keep-alive")].

(** [DataverseClient.__init__]: [self.session.headers.update(...)] on a
    fresh session. *)
Definition init (url token : string) : DataverseClient :=
  let u := Py.rstrip "/" url in
  {| dataverse_url := u;
     access_token := token;
     api_base := u ++ "/api/data/v9.2";
     session_headers :=
       hupdate session_default_headers
         [("Authorization", "Bearer " ++ token);
          ("Accept", "application/json");
          ("OData-MaxVersion", "4.0");
          ("OData-Version", "4.0")] |}.

Definition with_headers (c : DataverseClient) (h : headers) : DataverseClient :=
  {| dataverse_url := dataverse_url c; access_token := access_token c;
     api_base := api_base c; session_headers := h |}.

(** One method call: its result, the client object afterwards (its session
    headers are mutable) and the request put on the wire, if any. *)
Record call_result (A : Type) : Type := mkCall {
  result : exn + A;
  client_after : DataverseClient;
  sent : option request
}.
Arguments mkCall {A}.
Arguments result {A}.
Arguments client_after {A}.
Arguments sent {A}.

Section Methods.

(** [session.request(...)], and [response.json()] whose failure is a
    [requests.exceptions.JSONDecodeError] (a [RequestException]). *)
Variable send : request -> transport.
Variable json_loads : string -> string + json.

Definition http_error (r : response) : exn :=
  ClientError ("HTTP " ++ Py.str_of_Z (status_code r) ++ ": " ++ text r).

Definition request_failed (m : string) : exn :=
  ClientError ("Request failed: " ++ m).

(** [response.json() if response.text else {}] *)
Definition json_or_empty (r : response) : exn + json :=
  if String.eqb (text r) "" then inr (JObj [])
  else match json_loads (text r) with
       | inl m => inl (request_failed m)
       | inr j => inr j
       end.

Definition mk_request (c : DataverseClient) (m endpoint : string)
  (ps : option (list (string * string))) (b : option json) : request :=
  {| method := m; url := api_base c ++ "/" ++ endpoint; params := ps;
     req_headers := session_headers c; body := b |}.

Definition get (c : DataverseClient) (endpoint : string)
  (ps : option (list (string * string))) : call_result json :=
  let rq := mk_request c "GET" endpoint ps None in
  mkCall
    match send rq with
    | Fail m => inl (request_failed m)
    | Resp r =>
        if raises_for_status r then inl (http_error r) else json_or_empty r
    end c (Some rq).

(** The 204 branch of [post]. *)
Definition entity_id_result (r : response) : json :=
  let h := match hget (resp_headers r) "OData-EntityId" with
           | Some v => v | None => "" end in
  if negb (String.eqb h "") && Py.contains "(" h then
    let after := nth 1 (Py.split "(" h) "" in
    JObj [("id", JStr (nth 0 (Py.split ")" after) ""))]
  else JObj [].

Definition post (c : DataverseClient) (endpoint : string) (data : json)
  : call_result json :=
  let c' := with_headers c
              (hset (hset (session_headers c) "Content-Type" "application/json")
                 "Prefer" "return=representation") in
  let rq := mk_request c' "POST" endpoint None (Some data) in
  mkCall
    match send rq with
    | Fail m => inl (request_failed m)
    | Resp r =>
        if raises_for_status r then inl (http_error r)
        else if (status_code r =? 204)%Z then inr (entity_id_result r)
        else json_or_empty r
    end c' (Some rq).

Definition patch (c : DataverseClient) (endpoint : string) (data : json)
  : call_result json :=
  let c' := with_headers c
              (hset (session_headers c) "Content-Type" "application/json") in
  let rq := mk_request c' "PATCH" endpoint None (Some data) in
  mkCall
    match send rq with
    | Fail m => inl (request_failed m)
    | Resp r =>
        if raises_for_status r then inl (http_error r) else json_or_empty r
    end c' (Some rq).

Definition delete (c : DataverseClient) (endpoint : string) : call_result unit :=
  let rq := mk_request c "DELETE" endpoint None None in
  mkCall
    match send rq with
    | Fail m => inl (request_failed m)
    | Resp r => if raises_for_status r then inl (http_error r) else inr tt
    end c (Some rq).

End Methods.

(** A sequence of method calls on one client object. *)
Inductive op : Type :=
| OpGet (endpoint : string) (ps : option (list (string * string)))
| OpPost (endpoint : string) (data : json)
| OpPatch (endpoint : string) (data : json)
| OpDelete (endpoint : string).

Definition run_op send json_loads (c : DataverseClient) (o : op)
  : DataverseClient * option request :=
  match o with
  | OpGet e ps => let r := get send json_loads c e ps in (client_after r, sent r)
  | OpPost e d => let r := post send json_loads c e d in (client_after r, sent r)
  | OpPatch e d => let r := patch send json_loads c e d in (client_after r, sent r)
  | OpDelete e => let r := delete send c e in (client_after r, sent r)
  end.

(** The requests put on the wire by a sequence of calls. *)
Fixpoint run_ops send json_loads (c : DataverseClient) (os : list op)
  : DataverseClient * list request :=
  match os with
  | [] => (c, [])
  | o :: os' =>
      let '(c1, rq) := run_op send json_loads c o in
      let '(c2, rqs) := run_ops send json_loads c1 os' in
      (c2, match rq with Some q => q :: rqs | None => rqs end)
  end.

End Dv.

(* ------------------------------------------------------------------ *)
(** ** client.py: authentication and the process-wide client cache *)

Module Factory.

(** A call to the identity provider (MSAL). *)
Inductive idp_call : Type :=
| ClientCredentials (authority client_id client_secret scope : string)
| UsernamePassword (authority client_id username password scope : string).

(** What MSAL does with it: raise, or return its result dict. *)
Inductive idp_reply : Type :=
| IdpRaise (msg : string)
| IdpDict (d : list (string * string)).

(** The module globals [_config] and [_client], the client objects
    allocated so far (a client is referred to by its index), the
    environment, and the log of identity-provider round trips. *)
Record world : Type := mkWorld {
  env : Cfg.env;
  config_cache : option Cfg.Config;
  clients : list Dv.DataverseClient;
  client_cache : option nat;
  idp_log : list idp_call
}.

(** [get_config()] *)
Definition get_config (w : world) : Cfg.Config * world :=
  match config_cache w with
  | Some c => (c, w)
  | None =>
      let c := Cfg.from_env (env w) in
      (c, {| env := env w; config_cache := Some c; clients := clients w;
             client_cache := client_cache w; idp_log := idp_log w |})
  end.

(** [reset_client()] *)
Definition reset_client (w : world) : world :=
  {| env := env w; config_cache := config_cache w; clients := clients w;
     client_cache := None; idp_log := idp_log w |}.

Definition log_idp (w : world) (q : idp_call) : world :=
  {| env := env w; config_cache := config_cache w; clients := clients w;
     client_cache := client_cache w; idp_log := idp_log w ++ [q] |}.

(** [_client = DataverseClient(url, token)]: a fresh object, cached. *)
Definition alloc_client (w : world) (url token : string) : nat * world :=
  let p := length (clients w) in
  (p, {| env := env w; config_cache := config_cache w;
         clients := clients w ++ [Dv.init url token];
         client_cache := Some p; idp_log := idp_log w |}).

Section Auth.

Variable idp : idp_call -> idp_reply.

Definition authority (c : Cfg.Config) : string :=
  "https://login.microsoftonline.com/" ++ Py.fmt_opt (Cfg.tenant_id c).

(** The token, or [ClientError(f"Failed to acquire token: {error}")]. *)
Definition token_of_reply (r : idp_reply) : exn + string :=
  match r with
  | IdpRaise m => inl (PyError "MsalError" m)
  | IdpDict d =>
      match Py.assoc "access_token" d with
      | Some t => inr t
      | None =>
          let err := match Py.assoc "error_description" d with
                     | Some e => e
                     | None => match Py.assoc "error" d with
                               | Some e => e | None => "Unknown error" end
                     end in
          inl (ClientError ("Failed to acquire token: " ++ err))
      end
  end.

(** [_get_service_principal_token(config)] *)
Definition get_service_principal_token (c : Cfg.Config) (w : world)
  : (exn + string) * world :=
  match Cfg.get_auth_scope c with
  | inl e => (inl e, w)
  | inr scope =>
      let q := ClientCredentials (authority c) (Py.fmt_opt (Cfg.client_id c))
                 (Py.fmt_opt (Cfg.client_secret c)) scope in
      (token_of_reply (idp q), log_idp w q)
  end.

(** [_get_user_token(config)] *)
Definition get_user_token (c : Cfg.Config) (w : world)
  : (exn + string) * world :=
  match Cfg.get_auth_scope c with
  | inl e => (inl e, w)
  | inr scope =>
      let q := UsernamePassword (authority c) (Py.fmt_opt (Cfg.client_id c))
                 (Py.fmt_opt (Cfg.username c)) (Py.fmt_opt (Cfg.password c))
                 scope in
      (token_of_reply (idp q), log_idp w q)
  end.

Definition missing_message (missing : list string) : string :=
  "Missing required Dataverse credentials. Please set the following " ++
  "environment variables:" ++ String "010" (String "010" "") ++
  fold_left (fun acc cred => acc ++ "  - " ++ cred ++ String "010" "")
    missing "" ++
  String "010" "For service principal authentication (recommended for CLI):" ++
  String "010" "  DATAVERSE_URL, DATAVERSE_CLIENT_ID, DATAVERSE_CLIENT_SECRET, DATAVERSE_TENANT_ID" ++
  String "010" (String "010" "For user authentication:") ++
  String "010" "  DATAVERSE_URL, DATAVERSE_CLIENT_ID, DATAVERSE_TENANT_ID, DATAVERSE_USERNAME, DATAVERSE_PASSWORD" ++
  String "010" (String "010" "For token authentication (if you already have a token):") ++
  String "010" "  DATAVERSE_URL, DATAVERSE_ACCESS_TOKEN" ++ String "010" "".

(** [get_client()]: the index of the returned client object. *)
Definition get_client (w : world) : (exn + nat) * world :=
  match client_cache w with
  | Some p => (inr p, w)
  | None =>
      let '(c, w) := get_config w in
      let missing := Cfg.get_missing_credentials c in
      if negb (Nat.eqb (length missing) 0) then
        (inl (ClientError (missing_message missing)), w)
      else if Cfg.has_token_auth c then
        let '(p, w) := alloc_client w (Py.fmt_opt (Cfg.dataverse_url c))
                         (Py.fmt_opt (Cfg.access_token c)) in
        (inr p, w)
      else if Cfg.has_service_principal_auth c then
        match get_service_principal_token c w with
        | (inl e, w) =>
            (inl (ClientError ("Failed to authenticate with service principal: "
                               ++ exn_str e)), w)
        | (inr t, w) =>
            let '(p, w) := alloc_client w (Py.fmt_opt (Cfg.dataverse_url c)) t in
            (inr p, w)
        end
      else if Cfg.has_user_auth c then
        match get_user_token c w with
        | (inl e, w) =>
            (inl (ClientError ("Failed to authenticate with user credentials: "
                               ++ exn_str e)), w)
        | (inr t, w) =>
            let '(p, w) := alloc_client w (Py.fmt_opt (Cfg.dataverse_url c)) t in
            (inr p, w)
        end
      else (inl (ClientError "No valid authentication method available"), w)
  end.

End Auth.

End Factory.

(* ------------------------------------------------------------------ *)
(** ** commands/flow.py and commands/solution.py *)

Module Commands.

(** Modelled from the spec: [format_response] of output.py, which is not
    part of the sources. Section 4 of the spec: the OData list wrapper
    [{"value": [...]}] is unwrapped to the plain list; any other response
    ([{}], a single record) is handed back unchanged. *)
Definition format_response (v : json) : json :=
  match v with
  | JObj d =>
      match Py.assoc "value" d with
      | Some (JArr l) => JArr l
      | _ => v
      end
  | _ => v
  end.

(** Exceptions reaching a command's outer [except Exception] handler,
    which hands them to [handle_api_error] and exits. [typer.Exit] is an
    [Exception] too, so an [Exit] raised inside the [try] ends up there. *)
Inductive cmd_exn : Type :=
| Raised (e : exn)
| Exit (code : Z).

(** What the command prints on success. *)
Inductive display : Type :=
| PrintJson (v : json)
| PrintTable (rows : json) (columns : list string).

Definition params := list (string * string).

(** A Dataverse GET issued by a command through [client.get]. *)
Definition api_call := (string * params)%type.

(** Commands run in a state-and-error monad whose state is the log of the
    GET calls issued so far. *)
Definition M (A : Type) := list api_call -> (cmd_exn + A) * list api_call.

Definition ret {A} (a : A) : M A := fun log => (inr a, log).

Definition bind {A B} (m : M A) (k : A -> M B) : M B :=
  fun log => match m log with
             | (inl e, log') => (inl e, log')
             | (inr a, log') => k a log'
             end.

Definition raise {A} (e : cmd_exn) : M A := fun log => (inl e, log).

Definition lift {A} (r : exn + A) : M A :=
  match r with inl e => raise (Raised e) | inr a => ret a end.

Notation "x <- m ;; k" := (bind m (fun x => k))
  (at level 61, m at next level, right associativity).

Definition attribute_error (ty : string) : exn :=
  PyError "AttributeError" ("'" ++ ty ++ "' object has no attribute 'get'").

Definition type_name (v : json) : string :=
  match v with
  | JNull => "NoneType" | JBool _ => "bool" | JNum _ => "int"
  | JStr _ => "str" | JArr _ => "list" | JObj _ => "dict"
  end.

Definition is_list (v : json) : bool :=
  match v with JArr _ => true | _ => false end.

(** [solutions[0].get("solutionid")] *)
Definition first_solution_id (solutions : json) : exn + json :=
  match solutions with
  | JArr (JObj d :: _) => inr (get d "solutionid")
  | JArr (x :: _) => inl (attribute_error (type_name x))
  | JArr [] => inl (PyError "IndexError" "list index out of range")
  | JObj _ => inl (PyError "KeyError" "0")
  | JStr _ => inl (attribute_error "str")
  | v => inl (PyError "TypeError"
                ("'" ++ type_name v ++ "' object is not subscriptable"))
  end.

(** The table decoration: [flow["state"] = "Activated" if ... else "Draft"]. *)
Definition add_state (flow : json) : exn + json :=
  match flow with
  | JObj d =>
      inr (JObj (set d "state"
                   (JStr (if py_eq (get d "statecode") (JNum 1)
                          then "Activated" else "Draft"))))
  | x => inl (attribute_error (type_name x))
  end.

Fixpoint map_exn (f : json -> exn + json) (l : list json) : exn + list json :=
  match l with
  | [] => inr []
  | x :: r =>
      match f x with
      | inl e => inl e
      | inr y => match map_exn f r with inl e => inl e | inr ys => inr (y :: ys) end
      end
  end.

Definition table_columns := ["name"; "workflowid"; "state"; "modifiedon"].

(** The common tail of both listing commands. *)
Definition show (table_format : bool) (flows : json) : exn + display :=
  match flows with
  | JArr fs =>
      if table_format then
        match map_exn add_state fs with
        | inl e => inl e
        | inr fs' => inr (PrintTable (JArr fs') table_columns)
        end
      else inr (PrintJson flows)
  | _ => inr (PrintJson flows)
  end.

Section Commands.

(** [client.get(endpoint, params=...)] on the cached client. *)
Variable api_get : string -> params -> exn + json.

Definition client_get (endpoint : string) (ps : params) : M json :=
  fun log => match api_get endpoint ps with
             | inl e => (inl (Raised e), (log ++ [(endpoint, ps)])%list)
             | inr v => (inr v, (log ++ [(endpoint, ps)])%list)
             end.

(** *** [flow list] *)

Definition flow_filters (state : option string) : list string :=
  ["category eq 5"] ++
  (if Py.truthy state then
     ["statecode eq " ++
      (if String.eqb (Py.lower (Py.fmt_opt state)) "activated" then "1" else "0")]
   else []).

Definition flow_params (state : option string) : params :=
  [("$filter", Py.join " and " (flow_filters state));
   ("$select", "workflowid,name,statecode,statuscode,createdon,modifiedon,solutionid");
   ("$orderby", "modifiedon desc")].

Definition solution_params (name : string) : params :=
  [("$filter", "friendlyname eq '" ++ name ++ "'"); ("$select", "solutionid")].

(** [[f for f in flows if f.get("solutionid") == solution_id]] *)
Fixpoint filter_by_solution (fs : list json) (sid : json) : exn + list json :=
  match fs with
  | [] => inr []
  | f :: r =>
      match f with
      | JObj d =>
          match filter_by_solution r sid with
          | inl e => inl e
          | inr r' => inr (if py_eq (get d "solutionid") sid then f :: r' else r')
          end
      | x => inl (attribute_error (type_name x))
      end
  end.

Definition list_flows (solution state : option string) (table_format : bool)
  : M display :=
  result <- client_get "workflows" (flow_params state) ;;
  let flows := format_response result in
  flows <- (if Py.truthy solution && is_list flows then
              solution_result <- client_get "solutions"
                                   (solution_params (Py.fmt_opt solution)) ;;
              let solutions := format_response solution_result in
              if Json.truthy solutions then
                solution_id <- lift (first_solution_id solutions) ;;
                match flows with
                | JArr fs => fs' <- lift (filter_by_solution fs solution_id) ;;
                             ret (JArr fs')
                | _ => ret flows
                end
              else ret flows
            else ret flows) ;;
  lift (show table_format flows).

(** *** [solution flows] *)

Definition component_params (solution_id : json) : params :=
  [("$filter", "_solutionid_value eq " ++ Json.str solution_id ++
               " and componenttype eq 29");
   ("$select", "objectid")].

(** [[comp.get("objectid") for comp in components if comp.get("objectid")]] *)
Fixpoint object_ids_of (comps : list json) : exn + list json :=
  match comps with
  | [] => inr []
  | JObj d :: r =>
      match object_ids_of r with
      | inl e => inl e
      | inr ids => let v := get d "objectid" in
                   inr (if Json.truthy v then v :: ids else ids)
      end
  | x :: _ => inl (attribute_error (type_name x))
  end.

Definition object_ids (components : json) : exn + list json :=
  match components with
  | JArr l => object_ids_of l
  | JObj _ | JStr _ => inl (attribute_error "str")
  | v => inl (PyError "TypeError"
                ("'" ++ type_name v ++ "' object is not iterable"))
  end.

Definition workflow_params (ids : list json) : params :=
  [("$filter", "category eq 5 and (" ++
      Py.join " or " (map (fun w => "workflowid eq " ++ Json.str w) ids) ++ ")");
   ("$select", "workflowid,name,statecode,createdon,modifiedon");
   ("$orderby", "modifiedon desc")].

(** Everything after the solution id is known. *)
Definition flows_of_solution (solution_id : json) : M json :=
  component_result <- client_get "solutioncomponents"
                        (component_params solution_id) ;;
  let components := format_response component_result in
  if negb (Json.truthy components) then ret (JArr [])
  else
    workflow_ids <- lift (object_ids components) ;;
    match workflow_ids with
    | [] => ret (JArr [])
    | _ => result <- client_get "workflows" (workflow_params workflow_ids) ;;
           ret (format_response result)
    end.

Definition list_solution_flows (name solution_id : option string)
  (table_format : bool) : M display :=
  let sid0 := match solution_id with Some s => JStr s | None => JNull end in
  sid <- (if Py.truthy name && negb (Json.truthy sid0) then
            result <- client_get "solutions" (solution_params (Py.fmt_opt name)) ;;
            let solutions := format_response result in
            if is_list solutions && Json.truthy solutions then
              lift (first_solution_id solutions)
            else raise (Exit 1)
          else ret sid0) ;;
  if negb (Json.truthy sid) then raise (Exit 1)
  else
    flows <- flows_of_solution sid ;;
    lift (show table_format flows).

End Commands.

End Commands.

(* ------------------------------------------------------------------ *)
(** ** Definitions following the spec's words, compared with the code *)

Module SpecSide.

(** The service-principal requirement set, paired with the config fields. *)
Definition service_principal_fields (c : Cfg.Config)
  : list (string * option string) :=
  [("DATAVERSE_URL", Cfg.dataverse_url c);
   ("DATAVERSE_CLIENT_ID", Cfg.client_id c);
   ("DATAVERSE_CLIENT_SECRET", Cfg.client_secret c);
   ("DATAVERSE_TENANT_ID", Cfg.tenant_id c)].

(** "exactly the absent field names from that set" *)
Definition absent_service_principal_fields (c : Cfg.Config) : list string :=
  map fst (filter (fun p => negb (Py.truthy (snd p)))
             (service_principal_fields c)).

(** The text after the first occurrence of [c] ([""] when none). *)
Fixpoint after_first (c : ascii) (s : string) : string :=
  match s with
  | EmptyString => EmptyString
  | String a r => if Ascii.eqb a c then r else after_first c r
  end.

(** The text before the first occurrence of [c] (all of [s] when none). *)
Fixpoint upto_char (c : ascii) (s : string) : string :=
  match s with
  | EmptyString => EmptyString
  | String a r => if Ascii.eqb a c then EmptyString else String a (upto_char c r)
  end.

(** The longest prefix of [s] holding neither parenthesis. *)
Fixpoint upto_paren (s : string) : string :=
  match s with
  | EmptyString => EmptyString
  | String a r =>
      if Ascii.eqb a "(" || Ascii.eqb a ")" then EmptyString
      else String a (upto_paren r)
  end.

(** Appending identity-provider round trips to a world's log. *)
Definition add_log (w : Factory.world) (calls : list Factory.idp_call)
  : Factory.world :=
  {| Factory.env := Factory.env w; Factory.config_cache := Factory.config_cache w;
     Factory.clients := Factory.clients w;
     Factory.client_cache := Factory.client_cache w;
     Factory.idp_log := (Factory.idp_log w ++ calls)%list |}.

Definition is_password_call (q : Factory.idp_call) : bool :=
  match q with Factory.UsernamePassword _ _ _ _ _ => true | _ => false end.

End SpecSide.

(* ------------------------------------------------------------------ *)
(** ** config.py: [reset_config], and the environment of the process *)

Module ConfigCache.

(** [reset_config()] *)
Definition reset_config (w : Factory.world) : Factory.world :=
  {| Factory.env := Factory.env w; Factory.config_cache := None;
     Factory.clients := Factory.clients w;
     Factory.client_cache := Factory.client_cache w;
     Factory.idp_log := Factory.idp_log w |}.

(** The process environment changed under the running program
    ([os.environ[...] = ...] or a new [.env] file). *)
Definition set_env (w : Factory.world) (e : Cfg.env) : Factory.world :=
  {| Factory.env := e; Factory.config_cache := Factory.config_cache w;
     Factory.clients := Factory.clients w;
     Factory.client_cache := Factory.client_cache w;
     Factory.idp_log := Factory.idp_log w |}.

End ConfigCache.

(* ------------------------------------------------------------------ *)
(** ** [json.dumps] with its default arguments *)

Module Dumps.

Definition dq : ascii := ascii_of_nat 34.
Definition backslash : ascii := ascii_of_nat 92.

Definition hex_digit (n : nat) : ascii :=
  ascii_of_nat (if (n <? 10)%nat then 48 + n else 87 + n).

(** [ESCAPE_ASCII] of the json module ([ensure_ascii=True]): backslash,
    the double quote and every character outside [' '..'~'] are escaped.
    Strings are byte strings here, a character being its Latin-1 code. *)
Definition escape_char (c : ascii) : string :=
  let n := nat_of_ascii c in
  if (n =? 34)%nat then String backslash (String dq "")
  else if (n =? 92)%nat then String backslash (String backslash "")
  else if (n =? 10)%nat then String backslash "n"
  else if (n =? 13)%nat then String backslash "r"
  else if (n =? 9)%nat then String backslash "t"
  else if (n =? 8)%nat then String backslash "b"
  else if (n =? 12)%nat then String backslash "f"
  else if (n <? 32)%nat || (126 <? n)%nat then
    String backslash ("u00" ++ String (hex_digit (n / 16)) (String (hex_digit (n mod 16)) ""))
  else String c "".

Fixpoint escape (s : string) : string :=
  match s with
  | EmptyString => EmptyString
  | String c r => escape_char c ++ escape r
  end.

Definition quote (s : string) : string := String dq (escape s ++ String dq "").

(** [json.dumps(v)]: separators [", "] and [": "]. *)
Fixpoint dumps (v : json) : string :=
  match v with
  | JNull => "null"
  | JBool true => "true"
  | JBool false => "false"
  | JNum n => Py.str_of_Z n
  | JStr s => quote s
  | JArr l => "[" ++ Py.join ", " (map dumps l) ++ "]"
  | JObj d =>
      "{" ++ Py.join ", " (map (fun '(k, x) => quote k ++ ": " ++ dumps x) d) ++ "}"
  end.

End Dumps.

(* ------------------------------------------------------------------ *)
(** ** commands/entity.py and commands/solution.py: the read commands *)

Module ReadCommands.
Import Commands.

Definition attribute_error_keys (ty : string) : exn :=
  PyError "AttributeError" ("'" ++ ty ++ "' object has no attribute 'keys'").

(** [solution["managed"] = "Yes" if solution.get("ismanaged") else "No"] *)
Definition add_managed (solution : json) : exn + json :=
  match solution with
  | JObj d =>
      inr (JObj (set d "managed"
                   (JStr (if Json.truthy (get d "ismanaged") then "Yes" else "No"))))
  | x => inl (attribute_error (type_name x))
  end.

Section ReadCommands.

Variable api_get : string -> params -> exn + json.

(** *** [entity query] *)

Definition query_params (filter_query select orderby : option string)
  (top : option Z) : params :=
  ((if Py.truthy filter_query then [("$filter", Py.fmt_opt filter_query)] else []) ++
   (if Py.truthy select then [("$select", Py.fmt_opt select)] else []) ++
   (if Py.truthy orderby then [("$orderby", Py.fmt_opt orderby)] else []) ++
   (match top with
    | Some t => if negb (Z.eqb t 0) then [("$top", Py.str_of_Z t)] else []
    | None => []
    end))%list.

Definition query_entity (entity_name : string)
  (filter_query select orderby : option string) (top : option Z)
  (table_format : bool) : M display :=
  result <- client_get api_get entity_name
              (query_params filter_query select orderby top) ;;
  let data := format_response result in
  match data with
  | JArr (first :: _) =>
      if table_format then
        match first with
        | JObj d =>
            let columns := map fst d in
            let columns := if (6 <? length columns)%nat then firstn 6 columns
                           else columns in
            ret (PrintTable data columns)
        | x => raise (Raised (attribute_error_keys (type_name x)))
        end
      else ret (PrintJson data)
  | _ => ret (PrintJson data)
  end.

(** *** [entity count]: the raw response, not [format_response]'s. *)

Definition count_params (filter_query : option string) : params :=
  ([("$count", "true"); ("$top", "1")] ++
   (if Py.truthy filter_query then [("$filter", Py.fmt_opt filter_query)] else []))%list.

Definition count_records (entity_name : string) (filter_query : option string)
  : M display :=
  result <- client_get api_get entity_name (count_params filter_query) ;;
  match result with
  | JObj d =>
      let count := match Py.assoc "@odata.count" d with
                   | Some v => v | None => JNum 0 end in
      ret (PrintJson (JObj [("entity", JStr entity_name); ("count", count)]))
  | x => raise (Raised (attribute_error (type_name x)))
  end.

(** *** [solution list] *)

Definition solutions_params (managed : option bool) : params :=
  ([("$select", "solutionid,friendlyname,uniquename,version,ismanaged,installedon");
    ("$orderby", "friendlyname")] ++
   (match managed with
    | Some b => [("$filter", ("ismanaged eq " ++ (if b then "true" else "false"))%string)]
    | None => []
    end))%list.

Definition list_solutions (managed : option bool) (table_format : bool)
  : M display :=
  result <- client_get api_get "solutions" (solutions_params managed) ;;
  let solutions := format_response result in
  match solutions with
  | JArr l =>
      if table_format then
        l' <- lift (map_exn add_managed l) ;;
        ret (PrintTable (JArr l') ["friendlyname"; "uniquename"; "version"; "managed"])
      else ret (PrintJson solutions)
  | _ => ret (PrintJson solutions)
  end.

(** *** [solution get]. [client.get(endpoint)] without params puts the
    same request on the wire as with an empty dict: logged as [[]]. *)

Definition get_solution (solution_id name : option string) : M display :=
  if Py.truthy solution_id then
    result <- client_get api_get ("solutions(" ++ Py.fmt_opt solution_id ++ ")") [] ;;
    ret (PrintJson (format_response result))
  else if Py.truthy name then
    result <- client_get api_get "solutions"
                [("$filter", "friendlyname eq '" ++ Py.fmt_opt name ++ "'")] ;;
    let formatted := format_response result in
    match formatted with
    | JArr (x :: _) => ret (PrintJson x)
    | _ => ret (PrintJson formatted)
    end
  else raise (Exit 1).

(** *** [solution components]. The [--type] option is never read. *)

Definition solution_components_params (solution_id : json) : params :=
  [("$filter", "_solutionid_value eq " ++ Json.str solution_id);
   ("$select", "solutioncomponentid,componenttype,objectid,createdon")].

Definition list_solution_components (solution_id name component_type : option string)
  : M display :=
  let sid0 := match solution_id with Some s => JStr s | None => JNull end in
  sid <- (if Py.truthy name && negb (Json.truthy sid0) then
            result <- client_get api_get "solutions"
                        (solution_params (Py.fmt_opt name)) ;;
            let solutions := format_response result in
            if is_list solutions && Json.truthy solutions then
              lift (first_solution_id solutions)
            else raise (Exit 1)
          else ret sid0) ;;
  if negb (Json.truthy sid) then raise (Exit 1)
  else
    result <- client_get api_get "solutioncomponents" (solution_components_params sid) ;;
    ret (PrintJson (format_response result)).

End ReadCommands.

End ReadCommands.

(* ------------------------------------------------------------------ *)
(** ** commands/flow.py: the write commands *)

Module FlowWrites.
Import Commands.

(** A write issued through [client.post], [client.patch] or
    [client.delete]. *)
Inductive write_call : Type :=
| WPost (endpoint : string) (data : json)
| WPatch (endpoint : string) (data : json)
| WDelete (endpoint : string).

Definition trigger_schema (kind : string) : json :=
  JObj [("type", JStr "Request"); ("kind", JStr kind);
        ("inputs", JObj [("schema", JObj [("type", JStr "object");
                                          ("properties", JObj [])])])].

(** The [trigger_def] of [create_flow], [None] for an unsupported type. *)
Definition trigger_def (trigger : string) : option json :=
  if String.eqb (Py.lower trigger) "http" then
    Some (JObj [("Incoming_Topics", trigger_schema "Http")])
  else if String.eqb (Py.lower trigger) "manual" then
    Some (JObj [("manual", trigger_schema "Button")])
  else None.

Definition clientdata (td : json) : json :=
  JObj [("properties", JObj [
          ("connectionReferences", JObj []);
          ("definition", JObj [
             ("$schema", JStr "https://schema.management.azure.com/providers/Microsoft.Logic/schemas/2016-06-01/workflowdefinition.json#");
             ("contentVersion", JStr "1.0.0.0");
             ("parameters", JObj [
                ("$authentication", JObj [("defaultValue", JObj []);
                                          ("type", JStr "SecureObject")]);
                ("$connections", JObj [("defaultValue", JObj []);
                                       ("type", JStr "Object")])]);
             ("triggers", td);
             ("actions", JObj [])])]);
        ("schemaVersion", JStr "1.0.0.0")].

(** The workflow record of [create_flow]. *)
Definition flow_data (name : string) (td : json)
  (solution_id description : option string) : list (string * json) :=
  let data :=
    [("name", JStr name); ("type", JNum 1); ("category", JNum 5);
     ("primaryentity", JStr "none"); ("mode", JNum 0);
     ("ondemand", JBool false); ("subprocess", JBool false); ("scope", JNum 4);
     ("triggeroncreate", JBool false); ("triggerondelete", JBool false);
     ("asyncautodelete", JBool false); ("syncworkflowlogonfailure", JBool false);
     ("statecode", JNum 0); ("statuscode", JNum 1);
     ("clientdata", JStr (Dumps.dumps (clientdata td)));
     ("istransacted", JBool true); ("runas", JNum 1); ("modernflowtype", JNum 0);
     ("clientdataiscompressed", JBool false)] in
  let data := if Py.truthy description
              then set data "description" (JStr (Py.fmt_opt description)) else data in
  if Py.truthy solution_id
  then set data "solutionid" (JStr (Py.fmt_opt solution_id)) else data.

(** The data of [update_flow]. *)
Definition update_data (name description state : option string)
  : list (string * json) :=
  ((if Py.truthy name then [("name", JStr (Py.fmt_opt name))] else []) ++
   (if Py.truthy description then [("description", JStr (Py.fmt_opt description))]
    else []) ++
   (if Py.truthy state then
      [("statecode",
        JNum (if String.eqb (Py.lower (Py.fmt_opt state)) "activated" then 1 else 0))]
    else []))%list.

Definition flow_endpoint (flow_id : string) : string :=
  "workflows(" ++ flow_id ++ ")".

Section FlowWrites.

(** The cached client's [post], [patch] and [delete] ([delete]'s [None]
    is [JNull]). *)
Variable api_write : write_call -> exn + json.

(** [flow create]: the outcome and the writes issued. *)
Definition create_flow (name trigger : string)
  (solution_id description : option string)
  : (cmd_exn + display) * list write_call :=
  match trigger_def trigger with
  | None => (inl (Exit 1), [])
  | Some td =>
      let q := WPost "workflows" (JObj (flow_data name td solution_id description)) in
      match api_write q with
      | inl e => (inl (Raised e), [q])
      | inr (JObj d) =>
          let w := get d "workflowid" in
          let flow_id := if Json.truthy w then w else get d "id" in
          (inr (PrintJson (JObj [("flow_id", flow_id); ("name", JStr name);
                                 ("trigger", JStr trigger)])), [q])
      | inr x => (inl (Raised (attribute_error (type_name x))), [q])
      end
  end.

(** [client.patch(f"workflows({flow_id})", data)] followed by
    [print_success(success)]: the outcome is the success message. *)
Definition patch_flow (flow_id : string) (data : list (string * json))
  (success : string) : (cmd_exn + string) * list write_call :=
  let q := WPatch (flow_endpoint flow_id) (JObj data) in
  (match api_write q with inl e => inl (Raised e) | inr _ => inr success end, [q]).

(** [flow update] *)
Definition update_flow (flow_id : string) (name description state : option string)
  : (cmd_exn + string) * list write_call :=
  match update_data name description state with
  | [] => (inl (Exit 1), [])
  | data => patch_flow flow_id data ("Flow updated successfully: " ++ flow_id)
  end.

(** [flow activate] and [flow deactivate] *)
Definition activate_flow (flow_id : string) : (cmd_exn + string) * list write_call :=
  patch_flow flow_id [("statecode", JNum 1)] ("Flow activated successfully: " ++ flow_id).

Definition deactivate_flow (flow_id : string) : (cmd_exn + string) * list write_call :=
  patch_flow flow_id [("statecode", JNum 0)] ("Flow deactivated successfully: " ++ flow_id).

End FlowWrites.

End FlowWrites.

(* ------------------------------------------------------------------ *)
(** ** commands/auth.py *)

Module AuthCommands.
Import Commands Factory.

(** What [auth test] prints: a JSON value, or the token summary
    [{"token_type": d.get("token_type"), "expires_in": d.get("expires_in"),
      "scope": scope}] of MSAL's result dict [d]. *)
Inductive auth_print : Type :=
| PrintAuthJson (v : json)
| PrintTokenInfo (d : list (string * string)) (scope : string).

Definition opt_json (o : option string) : json :=
  match o with Some s => JStr s | None => JNull end.

Definition token_message : json :=
  JObj [("message", JStr "Token acquired successfully");
        ("hint", JStr "Use --show to display the full token")].

Section AuthCommands.

Variable idp : idp_call -> idp_reply.

(** [app.acquire_token_...(...)] and the [if "access_token" in result] test:
    MSAL's result dict and its token, or the exception reaching the
    command's handler. *)
Definition acquire (q : idp_call) (w : world)
  : (cmd_exn + (list (string * string) * string)) * world :=
  let w' := log_idp w q in
  match idp q with
  | IdpRaise m => (inl (Raised (PyError "MsalError" m)), w')
  | IdpDict d =>
      match Py.assoc "access_token" d with
      | Some t => (inr (d, t), w')
      | None => (inl (Exit 1), w')
      end
  end.

Definition service_principal_call (c : Cfg.Config) (scope : string) : idp_call :=
  ClientCredentials (authority c) (Py.fmt_opt (Cfg.client_id c))
    (Py.fmt_opt (Cfg.client_secret c)) scope.

Definition user_call (c : Cfg.Config) (scope : string) : idp_call :=
  UsernamePassword (authority c) (Py.fmt_opt (Cfg.client_id c))
    (Py.fmt_opt (Cfg.username c)) (Py.fmt_opt (Cfg.password c)) scope.

(** The token-acquiring part of [get_token]: [access_token] afterwards. *)
Definition token_step (c : Cfg.Config) (w : world)
  : (cmd_exn + option string) * world :=
  if Cfg.has_token_auth c then (inr (Cfg.access_token c), w)
  else if Cfg.has_service_principal_auth c then
    match Cfg.get_auth_scope c with
    | inl e => (inl (Raised e), w)
    | inr scope =>
        match acquire (service_principal_call c scope) w with
        | (inl e, w') => (inl e, w')
        | (inr (_, t), w') => (inr (Some t), w')
        end
    end
  else if Cfg.has_user_auth c then
    match Cfg.get_auth_scope c with
    | inl e => (inl (Raised e), w)
    | inr scope =>
        match acquire (user_call c scope) w with
        | (inl e, w') => (inl e, w')
        | (inr (_, t), w') => (inr (Some t), w')
        end
    end
  else (inr None, w).

(** [auth token]: the JSON printed. *)
Definition get_token (show_token : bool) (w : world) : (cmd_exn + json) * world :=
  let '(c, w) := get_config w in
  if negb (Nat.eqb (length (Cfg.get_missing_credentials c)) 0) then (inl (Exit 1), w)
  else
    match token_step c w with
    | (inl e, w') => (inl e, w')
    | (inr t, w') =>
        (inr (if show_token then JObj [("access_token", opt_json t)]
              else token_message), w')
    end.

(** [auth test]: the outcome, what was printed, the world afterwards. *)
Definition test_auth (w : world) : (cmd_exn + unit) * list auth_print * world :=
  let '(c, w) := get_config w in
  if negb (Nat.eqb (length (Cfg.get_missing_credentials c)) 0) then
    (inl (Exit 1), [], w)
  else if Cfg.has_service_principal_auth c then
    let p := PrintAuthJson (JObj [("auth_method", JStr "service_principal");
                                  ("client_id", opt_json (Cfg.client_id c))]) in
    match Cfg.get_auth_scope c with
    | inl e => (inl (Raised e), [p], w)
    | inr scope =>
        match acquire (service_principal_call c scope) w with
        | (inl e, w') => (inl e, [p], w')
        | (inr (d, _), w') => (inr tt, [p; PrintTokenInfo d scope], w')
        end
    end
  else if Cfg.has_user_auth c then
    let p := PrintAuthJson (JObj [("auth_method", JStr "user_credentials");
                                  ("username", opt_json (Cfg.username c))]) in
    match Cfg.get_auth_scope c with
    | inl e => (inl (Raised e), [p], w)
    | inr scope =>
        match acquire (user_call c scope) w with
        | (inl e, w') => (inl e, [p], w')
        | (inr (d, _), w') => (inr tt, [p; PrintTokenInfo d scope], w')
        end
    end
  else if Cfg.has_token_auth c then
    (inr tt, [PrintAuthJson (JObj [("auth_method", JStr "access_token")])], w)
  else (inl (Exit 1), [], w).

End AuthCommands.

End AuthCommands.

(* ------------------------------------------------------------------ *)
(** ** delete_connector.py *)

Module DeleteConnector.
Import Commands FlowWrites.

(** The calls the script makes on the client. *)
Inductive script_call : Type :=
| SGet (endpoint : string) (ps : params)
| SWrite (q : write_call).

(** The result of [delete_connector] ([inl] for an exception escaping it),
    whether the dependency hint was printed, and the calls made. *)
Record outcome : Type := mkOutcome {
  returned : exn + bool;
  dependency_hint : bool;
  calls : list script_call
}.

(** [except ClientError as e: ... return False]; other exceptions escape. *)
Definition on_error (e : exn) (log : list script_call) : outcome :=
  match e with
  | ClientError m =>
      mkOutcome (inr false) (Py.contains "referenced by" (Py.lower (exn_str e))) log
  | _ => mkOutcome (inl e) false log
  end.

Definition dependencies_request (connector_id : string) : write_call :=
  WPost "RetrieveDependenciesForDelete"
    (JObj [("ObjectId", JStr connector_id); ("ComponentType", JNum 372)]).

Definition connector_endpoint (connector_id : string) : string :=
  "connectors(" ++ connector_id ++ ")".

Definition connector_params : params := [("$select", "connectorid,name,displayname")].

Section DeleteConnector.

Variable api_get : string -> params -> exn + json.
Variable api_write : write_call -> exn + json.

(** [retrieve_dependencies(client, connector_id)]: a [ClientError] is
    swallowed ([None]); other exceptions escape. *)
Definition retrieve_dependencies (connector_id : string) : exn + json :=
  match api_write (dependencies_request connector_id) with
  | inl (ClientError _) => inr JNull
  | r => r
  end.

(** [delete_connector(connector_id)], given how [get_client()] ended. *)
Definition delete_connector (client : exn + unit) (connector_id : string) : outcome :=
  match client with
  | inl e => on_error e []
  | inr _ =>
      let ep := connector_endpoint connector_id in
      let log1 := [SGet ep connector_params] in
      match api_get ep connector_params with
      | inl e => on_error e log1
      | inr (JObj _) =>
          let log2 := (log1 ++ [SWrite (dependencies_request connector_id)])%list in
          match retrieve_dependencies connector_id with
          | inl e => on_error e log2
          | inr _ =>
              let log3 := (log2 ++ [SWrite (WDelete ep)])%list in
              match api_write (WDelete ep) with
              | inl e => on_error e log3
              | inr _ => mkOutcome (inr true) false log3
              end
          end
      | inr x => on_error (attribute_error (type_name x)) log1
      end
  end.

End DeleteConnector.

End DeleteConnector.

(* ================================================================== *)
(** * Properties *)

(** ** config.py *)

(** C5: with a non-empty access token and base URL, [has_token_auth()] is
    true whatever the other fields hold, and [get_missing_credentials()]
    returns the empty list. *)
Theorem token_auth_short_circuits (c : Cfg.Config)
  (Htok : Py.truthy (Cfg.access_token c) = true)
  (Hurl : Py.truthy (Cfg.dataverse_url c) = true) :
  Cfg.has_token_auth c = true /\ Cfg.get_missing_credentials c = [].
Proof.
  unfold Cfg.has_token_auth, Cfg.get_missing_credentials.
  rewrite Htok, Hurl. split; reflexivity.
Qed.

Lemma token_auth_short_circuits_witness :
  let c := Cfg.from_env [("DATAVERSE_ACCESS_TOKEN", "eyJ0");
                         ("DATAVERSE_URL", "https://org.crm.dynamics.com")] in
  Py.truthy (Cfg.access_token c) = true /\
  Py.truthy (Cfg.dataverse_url c) = true /\
  (Cfg.has_token_auth c = true /\ Cfg.get_missing_credentials c = []).
Proof.
  intro c. split; [reflexivity | split; [reflexivity |]].
  apply token_auth_short_circuits; reflexivity.
Defined.

(** C6: without an access token, [get_missing_credentials()] is exactly
    the list of absent service-principal variables, in the order URL,
    client id, client secret, tenant id; user credentials play no part. *)
Theorem missing_credentials_service_principal_set (c : Cfg.Config)
  (Hnotok : Py.truthy (Cfg.access_token c) = false) :
  Cfg.get_missing_credentials c = SpecSide.absent_service_principal_fields c /\
  (forall n, In n (Cfg.get_missing_credentials c) ->
     In n ["DATAVERSE_URL"; "DATAVERSE_CLIENT_ID";
           "DATAVERSE_CLIENT_SECRET"; "DATAVERSE_TENANT_ID"]).
Proof.
  assert (Heq : Cfg.get_missing_credentials c =
                SpecSide.absent_service_principal_fields c).
  { unfold Cfg.get_missing_credentials, SpecSide.absent_service_principal_fields,
      SpecSide.service_principal_fields.
    rewrite Hnotok. simpl.
    destruct (Py.truthy (Cfg.dataverse_url c)), (Py.truthy (Cfg.client_id c)),
      (Py.truthy (Cfg.client_secret c)), (Py.truthy (Cfg.tenant_id c));
      reflexivity. }
  split; [exact Heq |].
  intros n Hn. rewrite Heq in Hn.
  unfold SpecSide.absent_service_principal_fields,
    SpecSide.service_principal_fields in Hn.
  apply in_map_iff in Hn. destruct Hn as [[k v] [Hk Hin]]. simpl in Hk. subst k.
  apply filter_In in Hin. destruct Hin as [Hin _].
  simpl in Hin. simpl.
  destruct Hin as [H|[H|[H|[H|[]]]]]; inversion H; auto.
Qed.

Lemma missing_credentials_service_principal_set_witness :
  let c := Cfg.from_env [("DATAVERSE_URL", "https://org.crm.dynamics.com");
                         ("DATAVERSE_CLIENT_ID", "app");
                         ("DATAVERSE_TENANT_ID", "tenant");
                         ("DATAVERSE_USERNAME", "u@x");
                         ("DATAVERSE_PASSWORD", "pw")] in
  Py.truthy (Cfg.access_token c) = false /\
  (Cfg.get_missing_credentials c = SpecSide.absent_service_principal_fields c /\
   (forall n, In n (Cfg.get_missing_credentials c) ->
      In n ["DATAVERSE_URL"; "DATAVERSE_CLIENT_ID";
            "DATAVERSE_CLIENT_SECRET"; "DATAVERSE_TENANT_ID"])).
Proof.
  intro c. split; [reflexivity |].
  apply missing_credentials_service_principal_set; reflexivity.
Defined.

(** ** client.py: [get_client] *)

Section GetClient.

Variable idp : Factory.idp_call -> Factory.idp_reply.

Lemma get_config_spec (w w1 : Factory.world) (c : Cfg.Config) :
  Factory.get_config w = (c, w1) ->
  Factory.config_cache w1 = Some c /\
  Factory.client_cache w1 = Factory.client_cache w /\
  Factory.clients w1 = Factory.clients w /\
  Factory.idp_log w1 = Factory.idp_log w.
Proof.
  unfold Factory.get_config. destruct (Factory.config_cache w) eqn:E;
    intro H; injection H; intros; subst; simpl; auto.
Qed.

Lemma get_config_cached (w : Factory.world) (c : Cfg.Config) :
  Factory.config_cache w = Some c -> Factory.get_config w = (c, w).
Proof. unfold Factory.get_config. intros ->. reflexivity. Qed.

Lemma add_log_app (w : Factory.world) (xs ys : list Factory.idp_call) :
  SpecSide.add_log (SpecSide.add_log w xs) ys = SpecSide.add_log w (xs ++ ys).
Proof. unfold SpecSide.add_log. simpl. rewrite app_assoc. reflexivity. Qed.

Lemma add_log_nil (w : Factory.world) : SpecSide.add_log w [] = w.
Proof. destruct w. unfold SpecSide.add_log. simpl. rewrite app_nil_r. reflexivity. Qed.

(** Each token flow only appends its round trips to the log, and does the
    same from any world. *)
Lemma service_principal_token_replays (c : Cfg.Config) (w w' : Factory.world)
  (r : exn + string) :
  Factory.get_service_principal_token idp c w = (r, w') ->
  exists calls, w' = SpecSide.add_log w calls /\
    existsb SpecSide.is_password_call calls = false /\
    (forall v, Factory.get_service_principal_token idp c v =
               (r, SpecSide.add_log v calls)).
Proof.
  unfold Factory.get_service_principal_token.
  destruct (Cfg.get_auth_scope c) as [e|scope]; intro H; injection H; intros; subst.
  - exists []. rewrite add_log_nil. split; [reflexivity | split; [reflexivity |]].
    intro v. rewrite add_log_nil. reflexivity.
  - eexists. split; [reflexivity | split; [reflexivity |]]. intro v. reflexivity.
Qed.

Lemma user_token_replays (c : Cfg.Config) (w w' : Factory.world)
  (r : exn + string) :
  Factory.get_user_token idp c w = (r, w') ->
  exists calls, w' = SpecSide.add_log w calls /\
    (forall v, Factory.get_user_token idp c v = (r, SpecSide.add_log v calls)).
Proof.
  unfold Factory.get_user_token.
  destruct (Cfg.get_auth_scope c) as [e|scope]; intro H; injection H; intros; subst.
  - exists []. rewrite add_log_nil. split; [reflexivity |].
    intro v. rewrite add_log_nil. reflexivity.
  - eexists. split; [reflexivity |]. intro v. reflexivity.
Qed.

Lemma get_client_ok_caches (w w' : Factory.world) (p : nat) :
  Factory.get_client idp w = (inr p, w') -> Factory.client_cache w' = Some p.
Proof.
  unfold Factory.get_client.
  destruct (Factory.client_cache w) eqn:Hc.
  { intro H. injection H. intros; subst. exact Hc. }
  destruct (Factory.get_config w) as [c w1].
  destruct (negb _); [discriminate |].
  destruct (Cfg.has_token_auth c).
  { intro H. injection H. intros; subst. reflexivity. }
  destruct (Cfg.has_service_principal_auth c).
  { destruct (Factory.get_service_principal_token idp c w1) as [[e|t] w2];
      [discriminate | intro H; injection H; intros; subst; reflexivity]. }
  destruct (Cfg.has_user_auth c).
  { destruct (Factory.get_user_token idp c w1) as [[e|t] w2];
      [discriminate | intro H; injection H; intros; subst; reflexivity]. }
  discriminate.
Qed.

(** C4: once [get_client()] has returned a client, calling it again
    returns the same object and leaves the world as it is: in particular
    no identity-provider round trip is made. *)
Theorem get_client_idempotent (w w' : Factory.world) (p : nat)
  (H : Factory.get_client idp w = (inr p, w')) :
  Factory.get_client idp w' = (inr p, w').
Proof.
  apply get_client_ok_caches in H.
  unfold Factory.get_client. rewrite H. reflexivity.
Qed.

Lemma add_log_client_cache (w : Factory.world) calls :
  Factory.client_cache (SpecSide.add_log w calls) = Factory.client_cache w.
Proof. reflexivity. Qed.

Lemma add_log_config_cache (w : Factory.world) calls :
  Factory.config_cache (SpecSide.add_log w calls) = Factory.config_cache w.
Proof. reflexivity. Qed.

(** With nothing missing and no token, the service-principal set is
    complete: the user-credential branch of [get_client] is never reached. *)
Lemma no_missing_without_token_is_service_principal (c : Cfg.Config) :
  Cfg.get_missing_credentials c = [] -> Cfg.has_token_auth c = false ->
  Cfg.has_service_principal_auth c = true.
Proof.
  unfold Cfg.get_missing_credentials, Cfg.has_token_auth,
    Cfg.has_service_principal_auth.
  intros Hm Ht. rewrite Ht in Hm. simpl.
  destruct (Py.truthy (Cfg.dataverse_url c)), (Py.truthy (Cfg.client_id c)),
    (Py.truthy (Cfg.client_secret c)), (Py.truthy (Cfg.tenant_id c));
    try discriminate; reflexivity.
Qed.

(** C9: a failing [get_client()] leaves the client cache empty and
    allocates no client; calling it again redoes the credential check and
    the same identity-provider round trips and fails the same way. *)
Theorem get_client_failure_keeps_cache_empty (w w' : Factory.world) (e : exn)
  (Hc : Factory.client_cache w = None)
  (H : Factory.get_client idp w = (inl e, w')) :
  Factory.client_cache w' = None /\ Factory.clients w' = Factory.clients w /\
  exists calls, Factory.idp_log w' = (Factory.idp_log w ++ calls)%list /\
    Factory.get_client idp w' = (inl e, SpecSide.add_log w' calls).
Proof.
  unfold Factory.get_client in H. rewrite Hc in H.
  destruct (Factory.get_config w) as [c w1] eqn:Hg.
  destruct (get_config_spec _ _ _ Hg) as (Hcc & Hcl & Hcls & Hlog).
  assert (Hcl0 : forall calls,
             Factory.client_cache (SpecSide.add_log w1 calls) = None)
    by (intro; rewrite add_log_client_cache; congruence).
  assert (Hcfg : forall calls,
             Factory.get_config (SpecSide.add_log w1 calls) =
             (c, SpecSide.add_log w1 calls))
    by (intro; apply get_config_cached; rewrite add_log_config_cache; exact Hcc).
  rewrite <- (add_log_nil w1) in H.
  destruct (negb _) eqn:Hm.
  - injection H; intros; subst w' e.
    split; [apply Hcl0 |]. split; [simpl; exact Hcls |].
    exists []. split; [simpl; rewrite Hlog; reflexivity |].
    unfold Factory.get_client. rewrite Hcl0, Hcfg, Hm.
    rewrite add_log_app. reflexivity.
  - rewrite add_log_nil in H.
    destruct (Cfg.has_token_auth c) eqn:Ht; [discriminate |].
    destruct (Cfg.has_service_principal_auth c) eqn:Hs.
    + destruct (Factory.get_service_principal_token idp c w1) as [[e0|t] w2] eqn:Hsp;
        [| discriminate].
      injection H; intros; subst w' e.
      destruct (service_principal_token_replays _ _ _ _ Hsp) as (calls & -> & _ & Hrep).
      split; [apply Hcl0 |]. split; [simpl; exact Hcls |].
      exists calls. split; [simpl; rewrite Hlog; reflexivity |].
      unfold Factory.get_client. rewrite Hcl0, Hcfg, Hm, Ht, Hs, Hrep.
      reflexivity.
    + destruct (Cfg.has_user_auth c) eqn:Hu.
      * destruct (Factory.get_user_token idp c w1) as [[e0|t] w2] eqn:Hut;
          [| discriminate].
        injection H; intros; subst w' e.
        destruct (user_token_replays _ _ _ _ Hut) as (calls & -> & Hrep).
        split; [apply Hcl0 |]. split; [simpl; exact Hcls |].
        exists calls. split; [simpl; rewrite Hlog; reflexivity |].
        unfold Factory.get_client. rewrite Hcl0, Hcfg, Hm, Ht, Hs, Hu, Hrep.
        reflexivity.
      * injection H; intros; subst w' e.
        split; [congruence |]. split; [simpl; exact Hcls |].
        exists []. split; [simpl; rewrite Hlog, app_nil_r; reflexivity |].
        rewrite add_log_nil.
        assert (Hcl1 : Factory.client_cache w1 = None) by congruence.
        unfold Factory.get_client. rewrite Hcl1, (get_config_cached _ _ Hcc).
        rewrite Hm, Ht, Hs, Hu. reflexivity.
Qed.

(** [get_client] never makes a username/password round trip: every
    configuration that passes the credential check is token- or
    service-principal-complete. *)
Lemma get_client_never_uses_password_flow (w : Factory.world) :
  exists calls,
    Factory.idp_log (snd (Factory.get_client idp w)) = (Factory.idp_log w ++ calls)%list /\
    existsb SpecSide.is_password_call calls = false.
Proof.
  unfold Factory.get_client.
  destruct (Factory.client_cache w) eqn:Hc.
  { exists []. rewrite app_nil_r. split; reflexivity. }
  destruct (Factory.get_config w) as [c w1] eqn:Hg.
  destruct (get_config_spec _ _ _ Hg) as (_ & _ & _ & Hlog).
  destruct (negb (Nat.eqb (length (Cfg.get_missing_credentials c)) 0)) eqn:Hm.
  { exists []. rewrite app_nil_r. split; [exact Hlog | reflexivity]. }
  destruct (Cfg.has_token_auth c) eqn:Ht.
  { exists []. rewrite app_nil_r. split; [exact Hlog | reflexivity]. }
  destruct (Cfg.has_service_principal_auth c) eqn:Hs.
  { destruct (Factory.get_service_principal_token idp c w1) as [r w2] eqn:Hsp.
    destruct (service_principal_token_replays _ _ _ _ Hsp) as (calls & -> & Hno & _).
    exists calls. destruct r; simpl; rewrite Hlog; split; auto. }
  exfalso.
  assert (Hm0 : Cfg.get_missing_credentials c = []).
  { destruct (Cfg.get_missing_credentials c); [reflexivity | discriminate]. }
  rewrite (no_missing_without_token_is_service_principal c Hm0 Ht) in Hs.
  discriminate.
Qed.

End GetClient.

Lemma get_client_idempotent_witness :
  let idp := fun _ : Factory.idp_call =>
               Factory.IdpDict [("access_token", "eyJ0")] in
  let w0 := Factory.mkWorld
              [("DATAVERSE_URL", "https://org.crm.dynamics.com/");
               ("DATAVERSE_CLIENT_ID", "app"); ("DATAVERSE_CLIENT_SECRET", "s");
               ("DATAVERSE_TENANT_ID", "t")] None [] None [] in
  Factory.get_client idp w0 = (inr 0%nat, snd (Factory.get_client idp w0)) /\
  Factory.get_client idp (snd (Factory.get_client idp w0)) =
    (inr 0%nat, snd (Factory.get_client idp w0)).
Proof.
  intros idp w0.
  assert (H : Factory.get_client idp w0 =
              (inr 0%nat, snd (Factory.get_client idp w0)))
    by (vm_compute; reflexivity).
  split; [exact H | exact (get_client_idempotent idp _ _ _ H)].
Defined.

Lemma get_client_failure_keeps_cache_empty_witness :
  let idp := fun _ : Factory.idp_call =>
               Factory.IdpDict [("error", "invalid_client")] in
  let w0 := Factory.mkWorld
              [("DATAVERSE_URL", "https://org.crm.dynamics.com");
               ("DATAVERSE_CLIENT_ID", "app"); ("DATAVERSE_CLIENT_SECRET", "bad");
               ("DATAVERSE_TENANT_ID", "t")] None [] None [] in
  let e := ClientError ("Failed to authenticate with service principal: " ++
                        "Failed to acquire token: invalid_client") in
  Factory.client_cache w0 = None /\
  Factory.get_client idp w0 = (inl e, snd (Factory.get_client idp w0)) /\
  (Factory.client_cache (snd (Factory.get_client idp w0)) = None /\
   Factory.clients (snd (Factory.get_client idp w0)) = Factory.clients w0 /\
   exists calls,
     Factory.idp_log (snd (Factory.get_client idp w0)) = (Factory.idp_log w0 ++ calls)%list /\
     Factory.get_client idp (snd (Factory.get_client idp w0)) =
       (inl e, SpecSide.add_log (snd (Factory.get_client idp w0)) calls)).
Proof.
  intros idp w0 e.
  assert (H : Factory.get_client idp w0 = (inl e, snd (Factory.get_client idp w0)))
    by (vm_compute; reflexivity).
  split; [reflexivity | split; [exact H |]].
  exact (get_client_failure_keeps_cache_empty idp w0 _ e eq_refl H).
Defined.

(** C3 (evaluated at a user-credential configuration): URL, client id,
    tenant, username and password set, no secret and no token. The
    credential check reports DATAVERSE_CLIENT_SECRET missing and
    [get_client] fails before any identity-provider round trip, although
    [has_user_auth()] holds: the username/password flow is not used. *)
Theorem user_credentials_rejected_before_password_flow
  (idp : Factory.idp_call -> Factory.idp_reply) :
  let e := [("DATAVERSE_URL", "https://org.crm.dynamics.com");
            ("DATAVERSE_CLIENT_ID", "app"); ("DATAVERSE_TENANT_ID", "t");
            ("DATAVERSE_USERNAME", "user@org.com");
            ("DATAVERSE_PASSWORD", "pw")] in
  Cfg.has_user_auth (Cfg.from_env e) = true /\
  Cfg.has_token_auth (Cfg.from_env e) = false /\
  Cfg.has_service_principal_auth (Cfg.from_env e) = false /\
  Py.contains "DATAVERSE_CLIENT_SECRET"
    (Factory.missing_message ["DATAVERSE_CLIENT_SECRET"]) = true /\
  let '(r, w') := Factory.get_client idp (Factory.mkWorld e None [] None []) in
  r = inl (ClientError (Factory.missing_message ["DATAVERSE_CLIENT_SECRET"])) /\
  Factory.idp_log w' = [] /\ Factory.client_cache w' = None.
Proof.
  intro e. vm_compute. repeat split.
Qed.

(** ** client.py: [DataverseClient] methods *)

Lemma prefix_app (s t : string) : prefix s (s ++ t) = true.
Proof.
  induction s as [|a s IH]; simpl; [destruct t; reflexivity |].
  destruct (ascii_dec a a) as [_|n]; [exact IH | contradiction].
Qed.

Lemma contains_app_l (sub x y : string) :
  Py.contains sub y = true -> Py.contains sub (x ++ y) = true.
Proof.
  intro H. induction x as [|a x IH]; simpl; [exact H |].
  rewrite IH. apply orb_true_r.
Qed.

Lemma contains_prefix (s t : string) : Py.contains s (s ++ t) = true.
Proof.
  destruct s; simpl; [destruct t; reflexivity |].
  destruct (ascii_dec a a) as [_|n]; [| contradiction].
  rewrite prefix_app. reflexivity.
Qed.

Lemma append_empty_r (s : string) : s ++ "" = s.
Proof. induction s as [|a s IH]; simpl; [reflexivity | rewrite IH; reflexivity]. Qed.

Lemma contains_self (s : string) : Py.contains s s = true.
Proof. rewrite <- (append_empty_r s) at 2. apply contains_prefix. Qed.

Lemma raises_for_status_range (r : response) :
  (400 <= status_code r < 600)%Z -> raises_for_status r = true.
Proof.
  intros [H1 H2]. unfold raises_for_status.
  apply andb_true_intro. split; [apply Z.leb_le | apply Z.ltb_lt]; lia.
Qed.

(** C1 (as amended): when the server answers with a status in 400..599,
    each of [get], [post], [patch] and [delete] fails with
    [ClientError("HTTP <status>: <body>")]; the message holds the decimal
    status and the response text verbatim. Any other status, 2xx or not,
    raises nothing: [get] and [patch] give [{}] for an empty body and the
    decoded JSON otherwise, and [delete] succeeds. *)
Theorem http_error_message_embeds_status_and_body
  (send : request -> transport) (json_loads : string -> string + json)
  (c : Dv.DataverseClient) (endpoint : string)
  (ps : option (list (string * string))) (data : json) (r : response)
  (Hsend : forall rq, send rq = Resp r)
  (Hst : (400 <= status_code r < 600)%Z) :
  let msg := "HTTP " ++ Py.str_of_Z (status_code r) ++ ": " ++ text r in
  Py.contains (Py.str_of_Z (status_code r)) msg = true /\
  Py.contains (text r) msg = true /\
  Dv.result (Dv.get send json_loads c endpoint ps) = inl (ClientError msg) /\
  Dv.result (Dv.post send json_loads c endpoint data) = inl (ClientError msg) /\
  Dv.result (Dv.patch send json_loads c endpoint data) = inl (ClientError msg) /\
  Dv.result (Dv.delete send c endpoint) = inl (ClientError msg) /\
  (forall (send' : request -> transport) (r' : response),
     (forall rq, send' rq = Resp r') -> ~ (400 <= status_code r' < 600)%Z ->
     Dv.result (Dv.get send' json_loads c endpoint ps) = Dv.json_or_empty json_loads r' /\
     Dv.result (Dv.patch send' json_loads c endpoint data) =
       Dv.json_or_empty json_loads r' /\
     Dv.result (Dv.delete send' c endpoint) = inr tt).
Proof.
  intro msg.
  assert (Hok : forall (send' : request -> transport) (r' : response),
     (forall rq, send' rq = Resp r') -> ~ (400 <= status_code r' < 600)%Z ->
     Dv.result (Dv.get send' json_loads c endpoint ps) = Dv.json_or_empty json_loads r' /\
     Dv.result (Dv.patch send' json_loads c endpoint data) =
       Dv.json_or_empty json_loads r' /\
     Dv.result (Dv.delete send' c endpoint) = inr tt).
  { intros send' r' Hs' Hn.
    assert (Hf : raises_for_status r' = false).
    { unfold raises_for_status.
      destruct ((400 <=? status_code r')%Z) eqn:E1; [| reflexivity].
      destruct ((status_code r' <? 600)%Z) eqn:E2; [| reflexivity].
      exfalso. apply Hn. apply Z.leb_le in E1. apply Z.ltb_lt in E2. lia. }
    unfold Dv.get, Dv.patch, Dv.delete. simpl. rewrite !Hs', Hf.
    repeat split. }
  apply raises_for_status_range in Hst.
  split; [apply (contains_app_l _ "HTTP "); apply contains_prefix |].
  split.
  { apply (contains_app_l _ "HTTP "). apply contains_app_l.
    apply (contains_app_l _ ": "). apply contains_self. }
  split; [| split; [| split; [| split; [| exact Hok]]]];
    unfold Dv.get, Dv.post, Dv.patch, Dv.delete; simpl;
    rewrite Hsend, Hst; reflexivity.
Qed.

Lemma http_error_message_embeds_status_and_body_witness :
  let r := mkResponse 409 "The record is referenced by other components" [] in
  (forall rq, (fun _ : request => Resp r) rq = Resp r) /\
  (400 <= status_code r < 600)%Z /\
  Dv.result (Dv.get (fun _ => Resp r) (fun _ => inl "") 
               (Dv.init "https://org.crm.dynamics.com" "tok") "workflows" None) =
    inl (ClientError ("HTTP 409: " ++ text r)).
Proof.
  intro r. split; [reflexivity | split; [simpl; lia |]].
  destruct (http_error_message_embeds_status_and_body
              (fun _ => Resp r) (fun _ => inl "")
              (Dv.init "https://org.crm.dynamics.com" "tok") "workflows" None
              (JObj []) r (fun _ => eq_refl) ltac:(simpl; lia))
    as (_ & _ & Hget & _).
  exact Hget.
Defined.

(** C1 does not hold for every non-2xx status: a 304 answer (with an empty
    body) is not turned into an error by [get], which returns [{}]. *)
Lemma http_304_is_not_an_error :
  let r := mkResponse 304 "" [] in
  ~ (200 <= status_code r < 300)%Z /\
  Dv.result (Dv.get (fun _ => Resp r) (fun _ => inl "Expecting value")
               (Dv.init "https://org.crm.dynamics.com" "tok") "workflows" None) =
    inr (JObj []).
Proof. intro r. split; [simpl; lia | reflexivity]. Qed.

Lemma split_cons (c : ascii) (s : string) :
  exists p ps, Py.split c s = p :: ps.
Proof.
  destruct s as [|a r]; simpl; [eauto |].
  destruct (Ascii.eqb a c); [eauto |].
  destruct (Py.split c r); eauto.
Qed.

Lemma split_nth0 (c : ascii) (s : string) :
  nth 0 (Py.split c s) "" = SpecSide.upto_char c s.
Proof.
  induction s as [|a r IH]; simpl; [reflexivity |].
  destruct (Ascii.eqb a c); [reflexivity |].
  destruct (split_cons c r) as (p & ps & E). rewrite E in *. simpl in *.
  rewrite IH. reflexivity.
Qed.

Lemma split_nth1 (c : ascii) (s : string) :
  Py.contains (String c "") s = true ->
  nth 1 (Py.split c s) "" = SpecSide.upto_char c (SpecSide.after_first c s).
Proof.
  induction s as [|a r IH]; simpl; [discriminate |].
  destruct (Ascii.eqb a c) eqn:E.
  - intros _. apply split_nth0.
  - apply Ascii.eqb_neq in E.
    destruct (ascii_dec c a) as [Hca|_]; [congruence |]. simpl.
    intro H. destruct (split_cons c r) as (p & ps & Es). rewrite Es in *.
    simpl in *. apply IH. exact H.
Qed.

Lemma upto_close_open (t : string) :
  SpecSide.upto_char ")" (SpecSide.upto_char "(" t) = SpecSide.upto_paren t.
Proof.
  induction t as [|a r IH]; simpl; [reflexivity |].
  destruct (Ascii.eqb a "(") eqn:E1; simpl; [reflexivity |].
  destruct (Ascii.eqb a ")") eqn:E2; simpl; [reflexivity |].
  rewrite IH. reflexivity.
Qed.

(** C2 (as amended): on a 204 answer [post] reads the OData-EntityId
    header (absent means [""]); when it is non-empty and holds a '(', the
    result is [{"id": x}] with [x] the text after the first '(' up to the
    next '(' or ')' (or the end), otherwise the result is [{}]. For the
    spec's example header, [x] is exactly the GUID. *)
Theorem post_204_entity_id
  (send : request -> transport) (json_loads : string -> string + json)
  (c : Dv.DataverseClient) (endpoint : string) (data : json) (r : response)
  (Hsend : forall rq, send rq = Resp r)
  (H204 : status_code r = 204%Z) :
  let h := match hget (resp_headers r) "OData-EntityId" with
           | Some v => v | None => "" end in
  Dv.result (Dv.post send json_loads c endpoint data) =
    inr (if negb (String.eqb h "") && Py.contains "(" h
         then JObj [("id", JStr (SpecSide.upto_paren (SpecSide.after_first "(" h)))]
         else JObj []) /\
  Dv.entity_id_result
    (mkResponse 204 ""
       [("OData-EntityId", "https://org.crm.dynamics.com/api/data/v9.2/workflows(29e2253b-cabc-f011-bbd3-000d3a8ba54e)")]) =
    JObj [("id", JStr "29e2253b-cabc-f011-bbd3-000d3a8ba54e")].
Proof.
  intro h. split; [| reflexivity].
  unfold Dv.post. simpl. rewrite Hsend.
  unfold raises_for_status. rewrite H204. simpl.
  f_equal. unfold Dv.entity_id_result. fold h.
  destruct (negb (String.eqb h "") && Py.contains "(" h) eqn:E; [| reflexivity].
  apply andb_true_iff in E as [_ E].
  rewrite split_nth1 by exact E. rewrite split_nth0, upto_close_open.
  reflexivity.
Qed.

Lemma post_204_entity_id_witness :
  let r := mkResponse 204 ""
             [("OData-EntityId", "https://org.crm.dynamics.com/api/data/v9.2/workflows(29e2253b-cabc-f011-bbd3-000d3a8ba54e)")] in
  (forall rq, (fun _ : request => Resp r) rq = Resp r) /\ status_code r = 204%Z /\
  Dv.result (Dv.post (fun _ => Resp r) (fun _ => inl "")
               (Dv.init "https://org.crm.dynamics.com" "tok") "workflows" (JObj [])) =
    inr (JObj [("id", JStr "29e2253b-cabc-f011-bbd3-000d3a8ba54e")]).
Proof.
  intro r. split; [reflexivity | split; [reflexivity |]].
  destruct (post_204_entity_id (fun _ => Resp r) (fun _ => inl "")
              (Dv.init "https://org.crm.dynamics.com" "tok") "workflows" (JObj []) r
              (fun _ => eq_refl) eq_refl) as [H _].
  rewrite H. vm_compute. reflexivity.
Defined.

(** C2 as stated fails: a header with '(' but no ')' is not answered with
    [{}] but with the rest of the header after the '(' (empty for a header
    ending in '('), and with nested parentheses the id stops at the inner
    '(' instead of running to the matching ')'. *)
Lemma post_204_malformed_headers :
  let post_with h :=
    Dv.result (Dv.post (fun _ => Resp (mkResponse 204 "" [("OData-EntityId", h)]))
                 (fun _ => inl "") (Dv.init "https://org.crm.dynamics.com" "tok")
                 "workflows" (JObj [])) in
  post_with "https://org.crm.dynamics.com/api/data/v9.2/workflows(29e2253b" =
    inr (JObj [("id", JStr "29e2253b")]) /\
  post_with "https://org.crm.dynamics.com/api/data/v9.2/workflows(" =
    inr (JObj [("id", JStr "")]) /\
  post_with "https://org.crm.dynamics.com/api/data/v9.2/workflows(a(b)c)" =
    inr (JObj [("id", JStr "a")]).
Proof. intro post_with. repeat split; vm_compute; reflexivity. Qed.

(** C8 (evaluated): the headers of a fresh client's session are not only
    the four fixed ones: requests' own defaults (User-Agent,
    Accept-Encoding, Connection) stay, with Accept overwritten in place.
    And [post] writes Content-Type and Prefer into the session's headers,
    so a later [get] on the same client sends both. *)
Theorem get_after_post_sends_write_headers :
  let send := fun _ : request => Resp (mkResponse 204 "" []) in
  let c := Dv.init "https://org.crm.dynamics.com" "tok" in
  map fst (Dv.session_headers c) =
    ["User-Agent"; "Accept-Encoding"; "Accept"; "Connection";
     "Authorization"; "OData-MaxVersion"; "OData-Version"] /\
  hget (Dv.session_headers c) "Authorization" = Some "Bearer tok" /\
  hget (Dv.session_headers c) "Accept" = Some "application/json" /\
  match snd (Dv.run_ops send (fun _ => inl "") c
               [Dv.OpPost "workflows" (JObj []); Dv.OpGet "workflows" None]) with
  | [_; g] => method g = "GET" /\
              hget (req_headers g) "Content-Type" = Some "application/json" /\
              hget (req_headers g) "Prefer" = Some "return=representation"
  | _ => False
  end.
Proof. vm_compute. repeat split. Qed.

(** ** commands: solution-scoped and solution-filtered flow listing *)

Section CommandProps.

Variable api_get : string -> Commands.params -> exn + json.

Lemma flows_of_solution_calls (sid : json) (log : list Commands.api_call)
  (r : Commands.cmd_exn + json) (calls : list Commands.api_call) :
  Commands.flows_of_solution api_get sid log = (r, calls) ->
  exists ws, calls = (log ++ ("solutioncomponents", Commands.component_params sid) :: ws)%list /\
    (forall x, In x ws -> fst x = "workflows").
Proof.
  unfold Commands.flows_of_solution, Commands.bind, Commands.client_get,
    Commands.ret, Commands.lift, Commands.raise.
  destruct (api_get "solutioncomponents" (Commands.component_params sid)) as [e|cr];
    [intro H; injection H; intros; subst; exists []; split; [reflexivity | contradiction] |].
  destruct (negb (Json.truthy (Commands.format_response cr))).
  { intro H; injection H; intros; subst; exists []; split; [reflexivity | contradiction]. }
  destruct (Commands.object_ids (Commands.format_response cr)) as [e|ids].
  { intro H; injection H; intros; subst; exists []; split; [reflexivity | contradiction]. }
  destruct ids as [|id ids].
  { intro H; injection H; intros; subst; exists []; split; [reflexivity | contradiction]. }
  intro H; cbn in H.
  destruct (api_get "workflows" (Commands.workflow_params (id :: ids)));
    injection H; intros; subst;
    eexists; (split; [rewrite <- app_assoc; reflexivity |]);
    intros x [<-|[]]; reflexivity.
Qed.

Lemma flows_of_solution_empty (sid : json) (log : list Commands.api_call) (cr : json)
  (Hcr : api_get "solutioncomponents" (Commands.component_params sid) = inr cr)
  (Hempty : Json.truthy (Commands.format_response cr) = false \/
            Commands.object_ids (Commands.format_response cr) = inr []) :
  Commands.flows_of_solution api_get sid log =
    (inr (JArr []), (log ++ [("solutioncomponents", Commands.component_params sid)])%list).
Proof.
  unfold Commands.flows_of_solution, Commands.bind, Commands.client_get,
    Commands.ret, Commands.lift, Commands.raise.
  rewrite Hcr.
  destruct Hempty as [Hf | Hi].
  - rewrite Hf. reflexivity.
  - destruct (Json.truthy (Commands.format_response cr)); simpl; [rewrite Hi |]; reflexivity.
Qed.

(** The id-resolution part of [list_solution_flows] only queries
    "solutions". *)
Lemma resolve_calls (name solution_id : option string)
  (r : Commands.cmd_exn + json) (l : list Commands.api_call) :
  (if Py.truthy name &&
      negb (Json.truthy match solution_id with Some s => JStr s | None => JNull end)
   then
     Commands.bind (Commands.client_get api_get "solutions"
                      (Commands.solution_params (Py.fmt_opt name)))
       (fun result =>
          if Commands.is_list (Commands.format_response result) &&
             Json.truthy (Commands.format_response result)
          then Commands.lift (Commands.first_solution_id (Commands.format_response result))
          else Commands.raise (Commands.Exit 1))
   else Commands.ret match solution_id with Some s => JStr s | None => JNull end) [] =
  (r, l) ->
  forall x, In x l -> fst x = "solutions".
Proof.
  destruct (_ && _).
  - unfold Commands.bind, Commands.client_get.
    destruct (api_get _ _) as [e|v].
    + intros H x Hx; injection H; intros; subst. destruct Hx as [<-|[]]. reflexivity.
    + cbn beta.
      destruct (_ && _); [unfold Commands.lift; destruct (Commands.first_solution_id _) |];
        intros H x Hx; injection H; intros; subst; destruct Hx as [<-|[]]; reflexivity.
  - intros H x Hx; injection H; intros; subst. contradiction.
Qed.

(** C7: whenever the solution-components query of [solution flows]
    (filtered by the resolved solution id and component type 29) yields an
    empty component set or no object id, the command shows the empty list
    and never queries "workflows". *)
Theorem solution_flows_empty_components_short_circuit
  (name solution_id : option string) (table_format : bool)
  (res : Commands.cmd_exn + Commands.display) (calls : list Commands.api_call)
  (j cr : json)
  (Hrun : Commands.list_solution_flows api_get name solution_id table_format [] =
          (res, calls))
  (Hin : In ("solutioncomponents", Commands.component_params j) calls)
  (Hcr : api_get "solutioncomponents" (Commands.component_params j) = inr cr)
  (Hempty : Json.truthy (Commands.format_response cr) = false \/
            Commands.object_ids (Commands.format_response cr) = inr []) :
  res = inr (if table_format
             then Commands.PrintTable (JArr []) Commands.table_columns
             else Commands.PrintJson (JArr [])) /\
  (forall ps, ~ In ("workflows", ps) calls).
Proof.
  unfold Commands.list_solution_flows in Hrun.
  unfold Commands.bind at 1 in Hrun.
  match type of Hrun with
  | (match ?P [] with _ => _ end) = _ => destruct (P []) as [[e|sid] l] eqn:Hp
  end.
  - injection Hrun; intros; subst.
    pose proof (resolve_calls _ _ _ _ Hp) as Hl. apply Hl in Hin. discriminate.
  - pose proof (resolve_calls _ _ _ _ Hp) as Hl. clear Hp. rename Hl into Hp.
    destruct (negb (Json.truthy sid)).
    + injection Hrun; intros; subst. apply Hp in Hin. discriminate.
    + unfold Commands.bind in Hrun.
      destruct (Commands.flows_of_solution api_get sid l) as [r0 calls0] eqn:Hf.
      destruct (flows_of_solution_calls _ _ _ _ Hf) as (ws & Hc & Hws).
      assert (Hl : calls0 = calls) by (destruct r0 as [|f];
        [| unfold Commands.lift; destruct (Commands.show _ _)];
        injection Hrun; intros; subst; reflexivity).
      rewrite Hl in Hc. clear Hl.
      assert (Hj : Commands.component_params j = Commands.component_params sid).
      { rewrite Hc in Hin. apply in_app_or in Hin as [H|[H|H]].
        - apply Hp in H. discriminate.
        - apply (f_equal snd) in H. simpl in H. symmetry. exact H.
        - apply Hws in H. discriminate. }
      rewrite Hj in Hcr.
      rewrite (flows_of_solution_empty sid l cr Hcr Hempty) in Hf.
      injection Hf; intros <- <-.
      split.
      * destruct table_format; simpl in Hrun; injection Hrun; auto.
      * intros ps Hw.
        assert (Hcalls : calls =
                  (l ++ [("solutioncomponents", Commands.component_params sid)])%list)
          by (destruct table_format; simpl in Hrun; injection Hrun; auto).
        rewrite Hcalls in Hw.
        apply in_app_or in Hw as [H|[H|[]]].
        -- apply Hp in H. discriminate.
        -- discriminate.
Qed.

End CommandProps.

Lemma solution_flows_empty_components_short_circuit_witness :
  let api := fun (ep : string) (_ : Commands.params) =>
               if String.eqb ep "solutioncomponents"
               then inr (JObj [("value", JArr [])]) : exn + json
               else inr (JObj [("value", JArr [JObj [("name", JStr "f")]])]) in
  let run := Commands.list_solution_flows api None (Some "5f6a") false [] in
  In ("solutioncomponents", Commands.component_params (JStr "5f6a")) (snd run) /\
  (fst run = inr (Commands.PrintJson (JArr [])) /\
   (forall ps, ~ In ("workflows", ps) (snd run))).
Proof.
  intros api run. split; [vm_compute; auto |].
  exact (solution_flows_empty_components_short_circuit api None (Some "5f6a") false
           (fst run) (snd run) (JStr "5f6a") (JObj [("value", JArr [])])
           eq_refl ltac:(vm_compute; auto) eq_refl (or_introl eq_refl)).
Defined.

Lemma show_json (v : json) : Commands.show false v = inr (Commands.PrintJson v).
Proof. destruct v; reflexivity. Qed.

(** C10: in [flow list --solution NAME], when the friendly-name lookup
    yields no solution the filter is dropped: the command ends exactly as
    it does without [--solution], and (without [--table]) prints the whole
    fetched flow list. *)
Theorem list_flows_unresolved_solution_unfiltered
  (api_get : string -> Commands.params -> exn + json)
  (sol : string) (state : option string) (table_format : bool) (s : json)
  (Hs : api_get "solutions" (Commands.solution_params sol) = inr s)
  (Hnone : Json.truthy (Commands.format_response s) = false) :
  fst (Commands.list_flows api_get (Some sol) state table_format []) =
    fst (Commands.list_flows api_get None state table_format []) /\
  (forall r, api_get "workflows" (Commands.flow_params state) = inr r ->
     fst (Commands.list_flows api_get (Some sol) state false []) =
       inr (Commands.PrintJson (Commands.format_response r))).
Proof.
  unfold Commands.list_flows, Commands.bind, Commands.client_get,
    Commands.ret, Commands.lift, Commands.raise.
  split.
  - destruct (api_get "workflows" (Commands.flow_params state)) as [e|r];
      [reflexivity |].
    cbn beta iota. change (Py.truthy None) with false. cbn [andb].
    destruct (Py.truthy (Some sol) && Commands.is_list (Commands.format_response r));
      [| reflexivity].
    simpl Py.fmt_opt. rewrite Hs. cbn beta iota. rewrite Hnone.
    destruct (Commands.show _ _); reflexivity.
  - intros r Hr. rewrite Hr. cbn beta iota.
    destruct (Py.truthy (Some sol) && Commands.is_list (Commands.format_response r)).
    + simpl Py.fmt_opt. rewrite Hs. cbn beta iota. rewrite Hnone.
      rewrite show_json. reflexivity.
    + rewrite show_json. reflexivity.
Qed.

Lemma list_flows_unresolved_solution_unfiltered_witness :
  let flows := JArr [JObj [("name", JStr "f1"); ("solutionid", JStr "s1")];
                     JObj [("name", JStr "f2"); ("solutionid", JStr "s2")]] in
  let api := fun (ep : string) (_ : Commands.params) =>
               if String.eqb ep "solutions"
               then inr (JObj [("value", JArr [])]) : exn + json
               else inr (JObj [("value", flows)]) in
  api "solutions" (Commands.solution_params "Missing Solution") =
    inr (JObj [("value", JArr [])]) /\
  Json.truthy (Commands.format_response (JObj [("value", JArr [])])) = false /\
  fst (Commands.list_flows api (Some "Missing Solution") None false []) =
    inr (Commands.PrintJson flows).
Proof.
  intros flows api. split; [reflexivity | split; [reflexivity |]].
  destruct (list_flows_unresolved_solution_unfiltered api "Missing Solution" None false
              (JObj [("value", JArr [])]) eq_refl eq_refl) as [_ H].
  exact (H (JObj [("value", flows)]) eq_refl).
Defined.

(* ================================================================== *)
(** * Further properties of the code *)

(** ** Helpers on strings, headers and dicts *)

Lemma str_app_assoc (x y z : string) : (x ++ y) ++ z = x ++ (y ++ z).
Proof. induction x as [|a x IH]; simpl; [reflexivity | rewrite IH; reflexivity]. Qed.

Lemma rstrip_snoc (c : ascii) (s : string) :
  Py.rstrip c (s ++ String c "") = Py.rstrip c s.
Proof.
  induction s as [|a r IH]; simpl.
  - rewrite Ascii.eqb_refl. reflexivity.
  - rewrite IH. reflexivity.
Qed.

Lemma rstrip_no_trailing (c : ascii) (s x : string) :
  Py.rstrip c s <> x ++ String c "".
Proof.
  revert x. induction s as [|a r IH]; intro x; simpl.
  - destruct x; discriminate.
  - destruct (String.eqb (Py.rstrip c r) "" && Ascii.eqb a c) eqn:E.
    + destruct x; discriminate.
    + destruct x as [|b x]; simpl; intro H; injection H; intros H1 H2.
      * subst a. rewrite H1, Ascii.eqb_refl in E. discriminate.
      * exact (IH x H1).
Qed.

Lemma hget_hset_other (h : headers) (k v k' : string) :
  String.eqb (Py.lower k) (Py.lower k') = false ->
  hget (hset h k v) k' = hget h k'.
Proof.
  intro Hk. rewrite String.eqb_sym in Hk.
  induction h as [|[k0 v0] r IH]; simpl.
  - rewrite Hk. reflexivity.
  - destruct (String.eqb (Py.lower k) (Py.lower k0)) eqn:E; simpl.
    + apply String.eqb_eq in E. rewrite <- E, Hk. reflexivity.
    + rewrite IH. reflexivity.
Qed.

Lemma hget_hset_same (h : headers) (k v : string) :
  hget (hset h k v) k = Some v.
Proof.
  induction h as [|[k0 v0] r IH]; simpl.
  - rewrite String.eqb_refl. reflexivity.
  - destruct (String.eqb (Py.lower k) (Py.lower k0)) eqn:E; simpl.
    + rewrite String.eqb_refl. reflexivity.
    + rewrite E. exact IH.
Qed.

Lemma get_set_same (d : list (string * json)) (k : string) (v : json) :
  get (set d k v) k = v.
Proof.
  unfold get. induction d as [|[k0 v0] r IH]; simpl.
  - rewrite String.eqb_refl. reflexivity.
  - destruct (String.eqb k k0) eqn:E; simpl; rewrite E; [reflexivity | exact IH].
Qed.

Lemma get_set_other (d : list (string * json)) (k k' : string) (v : json) :
  k' <> k -> get (set d k v) k' = get d k'.
Proof.
  intro Hk. unfold get. induction d as [|[k0 v0] r IH]; simpl.
  - apply String.eqb_neq in Hk. rewrite Hk. reflexivity.
  - destruct (String.eqb k k0) eqn:E; simpl.
    + apply String.eqb_eq in E. subst k0.
      apply String.eqb_neq in Hk. rewrite Hk. reflexivity.
    + destruct (String.eqb k' k0); [reflexivity | exact IH].
Qed.

Lemma contains_char_cons (c a : ascii) (r : string) :
  Py.contains (String c "") (String a r) =
  Ascii.eqb a c || Py.contains (String c "") r.
Proof.
  simpl. destruct (ascii_dec c a) as [->|n].
  - rewrite Ascii.eqb_refl. destruct r; reflexivity.
  - replace (Ascii.eqb a c) with false; [reflexivity |].
    symmetry. apply Ascii.eqb_neq. congruence.
Qed.

Lemma after_first_app (c : ascii) (x y : string) :
  Py.contains (String c "") x = false ->
  SpecSide.after_first c (x ++ String c y) = y.
Proof.
  induction x as [|a x IH]; intro H; simpl.
  - rewrite Ascii.eqb_refl. reflexivity.
  - rewrite contains_char_cons in H. apply orb_false_iff in H as [H1 H2].
    rewrite H1. exact (IH H2).
Qed.

Lemma upto_char_app (c : ascii) (x y : string) :
  Py.contains (String c "") x = false ->
  SpecSide.upto_char c (x ++ String c y) = x.
Proof.
  induction x as [|a x IH]; intro H; simpl.
  - rewrite Ascii.eqb_refl. reflexivity.
  - rewrite contains_char_cons in H. apply orb_false_iff in H as [H1 H2].
    rewrite H1, (IH H2). reflexivity.
Qed.

Lemma upto_char_none (c : ascii) (x : string) :
  Py.contains (String c "") x = false -> SpecSide.upto_char c x = x.
Proof.
  intro H. rewrite <- (append_empty_r x) at 1.
  induction x as [|a x IH]; simpl; [reflexivity |].
  rewrite contains_char_cons in H. apply orb_false_iff in H as [H1 H2].
  rewrite H1, (IH H2). reflexivity.
Qed.

Lemma contains_app_r (sub x y : string) :
  Py.contains sub x = true -> Py.contains sub (x ++ y) = true.
Proof.
  induction x as [|a x IH]; simpl; intro H.
  - destruct sub; [destruct y; reflexivity | discriminate].
  - apply orb_true_iff in H as [H|H].
    + apply orb_true_iff. left.
      destruct sub as [|b sub]; [destruct (x ++ y)%string; reflexivity |].
      simpl in H |- *. destruct (ascii_dec b a); [| discriminate].
      clear -H. revert x H. induction sub as [|b' sub IHs]; intros x H;
        [destruct (x ++ y)%string; reflexivity |].
      destruct x as [|a' x]; [discriminate |]. simpl in H |- *.
      destruct (ascii_dec b' a'); [exact (IHs x H) | discriminate].
    + rewrite (IH H). apply orb_true_r.
Qed.

Lemma contains_middle (sub x y : string) : Py.contains sub (x ++ sub ++ y) = true.
Proof. apply contains_app_l. apply contains_prefix. Qed.

Lemma lower_app (x y : string) : Py.lower (x ++ y) = (Py.lower x ++ Py.lower y)%string.
Proof. induction x as [|a x IH]; simpl; [reflexivity | rewrite IH; reflexivity]. Qed.

(** ** client.py: [DataverseClient] *)

(** X1: trailing slashes of the configured URL make no difference: the
    client built from [url + "/"] is the client built from [url], and the
    stored base URL never ends with a slash. *)
Theorem init_ignores_trailing_slash (url token : string) :
  Dv.init (url ++ "/") token = Dv.init url token /\
  (forall x, Dv.dataverse_url (Dv.init url token) <> x ++ "/").
Proof.
  split.
  - unfold Dv.init. rewrite rstrip_snoc. reflexivity.
  - intro x. apply rstrip_no_trailing.
Qed.

(** X2: a successful answer (status outside 400..599) with an empty body
    yields [{}] from [get] and [patch], and from [post] unless the status is
    204; [delete] succeeds. The JSON decoder is not consulted. *)
Theorem empty_body_yields_empty_dict
  (send : request -> transport) (json_loads : string -> string + json)
  (c : Dv.DataverseClient) (endpoint : string)
  (ps : option (list (string * string))) (data : json) (r : response)
  (Hsend : forall rq, send rq = Resp r)
  (Hok : ~ (400 <= status_code r < 600)%Z)
  (Hempty : text r = "") :
  Dv.result (Dv.get send json_loads c endpoint ps) = inr (JObj []) /\
  Dv.result (Dv.patch send json_loads c endpoint data) = inr (JObj []) /\
  (status_code r <> 204%Z ->
   Dv.result (Dv.post send json_loads c endpoint data) = inr (JObj [])) /\
  Dv.result (Dv.delete send c endpoint) = inr tt.
Proof.
  assert (Hr : raises_for_status r = false).
  { unfold raises_for_status. apply not_true_iff_false. intro H.
    apply andb_true_iff in H as [H1 H2]. apply Z.leb_le in H1. apply Z.ltb_lt in H2.
    apply Hok. lia. }
  unfold Dv.get, Dv.post, Dv.patch, Dv.delete, Dv.json_or_empty. simpl.
  rewrite !Hsend, Hr, Hempty. simpl.
  split; [reflexivity | split; [reflexivity | split; [| reflexivity]]].
  intro H. apply Z.eqb_neq in H. rewrite H. reflexivity.
Qed.

Lemma empty_body_yields_empty_dict_witness :
  let r := mkResponse 200 "" [] in
  (forall rq, (fun _ : request => Resp r) rq = Resp r) /\
  ~ (400 <= status_code r < 600)%Z /\ text r = "" /\
  Dv.result (Dv.get (fun _ => Resp r) (fun _ => inl "Expecting value")
               (Dv.init "https://org.crm.dynamics.com" "tok") "WhoAmI()" None) =
    inr (JObj []).
Proof.
  intro r. split; [reflexivity | split; [simpl; lia | split; [reflexivity |]]].
  destruct (empty_body_yields_empty_dict (fun _ => Resp r) (fun _ => inl "Expecting value")
              (Dv.init "https://org.crm.dynamics.com" "tok") "WhoAmI()" None (JObj []) r
              (fun _ => eq_refl) ltac:(simpl; lia) eq_refl) as [H _].
  exact H.
Defined.

(** X3: when the transport raises (connection error, timeout, ...), each
    of [get], [post], [patch] and [delete] fails with
    [ClientError("Request failed: <message>")]. *)
Theorem transport_failure_is_request_failed
  (send : request -> transport) (json_loads : string -> string + json)
  (c : Dv.DataverseClient) (endpoint : string)
  (ps : option (list (string * string))) (data : json) (m : string)
  (Hsend : forall rq, send rq = Fail m) :
  let e := ClientError ("Request failed: " ++ m) in
  Dv.result (Dv.get send json_loads c endpoint ps) = inl e /\
  Dv.result (Dv.post send json_loads c endpoint data) = inl e /\
  Dv.result (Dv.patch send json_loads c endpoint data) = inl e /\
  Dv.result (Dv.delete send c endpoint) = inl e.
Proof.
  intro e. unfold Dv.get, Dv.post, Dv.patch, Dv.delete. simpl.
  rewrite !Hsend. repeat split.
Qed.

Lemma transport_failure_is_request_failed_witness :
  (forall rq, (fun _ : request => Fail "Connection refused") rq = Fail "Connection refused") /\
  Dv.result (Dv.delete (fun _ => Fail "Connection refused")
               (Dv.init "https://org.crm.dynamics.com" "tok") "workflows(1)") =
    inl (ClientError "Request failed: Connection refused").
Proof.
  split; [reflexivity |].
  destruct (transport_failure_is_request_failed (fun _ => Fail "Connection refused")
              (fun _ => inl "") (Dv.init "https://org.crm.dynamics.com" "tok")
              "workflows(1)" None (JObj []) "Connection refused" (fun _ => eq_refl))
    as (_ & _ & _ & H).
  exact H.
Defined.

(** X4: a successful answer whose non-empty body is not JSON makes [get]
    and [patch] (and [post], unless the status is 204) fail with
    [ClientError("Request failed: <decoder message>")]: the decoder's
    error never escapes unwrapped. *)
Theorem undecodable_body_is_request_failed
  (send : request -> transport) (json_loads : string -> string + json)
  (c : Dv.DataverseClient) (endpoint : string)
  (ps : option (list (string * string))) (data : json) (r : response) (m : string)
  (Hsend : forall rq, send rq = Resp r)
  (Hok : ~ (400 <= status_code r < 600)%Z)
  (Hbody : text r <> "")
  (Hdec : json_loads (text r) = inl m) :
  let e := ClientError ("Request failed: " ++ m) in
  Dv.result (Dv.get send json_loads c endpoint ps) = inl e /\
  Dv.result (Dv.patch send json_loads c endpoint data) = inl e /\
  (status_code r <> 204%Z ->
   Dv.result (Dv.post send json_loads c endpoint data) = inl e).
Proof.
  intro e.
  assert (Hr : raises_for_status r = false).
  { unfold raises_for_status. apply not_true_iff_false. intro H.
    apply andb_true_iff in H as [H1 H2]. apply Z.leb_le in H1. apply Z.ltb_lt in H2.
    apply Hok. lia. }
  apply String.eqb_neq in Hbody.
  unfold Dv.get, Dv.post, Dv.patch, Dv.json_or_empty. simpl.
  rewrite !Hsend, Hr, Hbody, Hdec. simpl.
  split; [reflexivity | split; [reflexivity |]].
  intro H. apply Z.eqb_neq in H. rewrite H. reflexivity.
Qed.

Lemma undecodable_body_is_request_failed_witness :
  let r := mkResponse 200 "<html>Service Unavailable</html>" [] in
  let loads := fun _ : string => inl "Expecting value: line 1 column 1 (char 0)"
                                 : string + json in
  (forall rq, (fun _ : request => Resp r) rq = Resp r) /\
  ~ (400 <= status_code r < 600)%Z /\ text r <> "" /\
  loads (text r) = inl "Expecting value: line 1 column 1 (char 0)" /\
  Dv.result (Dv.get (fun _ => Resp r) loads
               (Dv.init "https://org.crm.dynamics.com" "tok") "workflows" None) =
    inl (ClientError "Request failed: Expecting value: line 1 column 1 (char 0)").
Proof.
  intros r loads.
  split; [reflexivity | split; [simpl; lia | split; [discriminate | split; [reflexivity |]]]].
  destruct (undecodable_body_is_request_failed (fun _ => Resp r) loads
              (Dv.init "https://org.crm.dynamics.com" "tok") "workflows" None (JObj []) r
              "Expecting value: line 1 column 1 (char 0)"
              (fun _ => eq_refl) ltac:(simpl; lia) ltac:(discriminate) eq_refl) as [H _].
  exact H.
Defined.

Lemma contains_char_app (c : ascii) (x y : string) :
  Py.contains (String c "") (x ++ y) =
  Py.contains (String c "") x || Py.contains (String c "") y.
Proof.
  induction x as [|a x IH]; [reflexivity |].
  simpl (String a x ++ y)%string. rewrite !contains_char_cons, IH.
  apply orb_assoc.
Qed.

(** A property of session headers kept by the two header updates of
    [post] and [patch] holds for every request a client sends. *)
Lemma run_ops_headers (P : headers -> Prop)
  (send : request -> transport) (json_loads : string -> string + json)
  (Hpost : forall h, P h ->
     P (hset (hset h "Content-Type" "application/json") "Prefer" "return=representation"))
  (Hpatch : forall h, P h -> P (hset h "Content-Type" "application/json")) :
  forall ops c, P (Dv.session_headers c) ->
  forall rq, In rq (snd (Dv.run_ops send json_loads c ops)) -> P (req_headers rq).
Proof.
  induction ops as [|o ops IH]; intros c Hc rq Hin; [contradiction |].
  simpl in Hin.
  assert (Ho : P (Dv.session_headers (fst (Dv.run_op send json_loads c o))) /\
               forall q, snd (Dv.run_op send json_loads c o) = Some q -> P (req_headers q)).
  { destruct o; simpl; (split; [auto | intros q Hq; injection Hq; intros <-; simpl; auto]). }
  destruct (Dv.run_op send json_loads c o) as [c1 q] eqn:Hr.
  destruct (Dv.run_ops send json_loads c1 ops) as [c2 rqs] eqn:Hrs.
  simpl in Ho. destruct Ho as [Hc1 Hq].
  destruct q as [q|].
  - destruct Hin as [<-|Hin]; [apply Hq; reflexivity |].
    apply (IH c1 Hc1). rewrite Hrs. exact Hin.
  - apply (IH c1 Hc1). rewrite Hrs. exact Hin.
Qed.

(** X5: every request sent by a client built from a token, after any
    sequence of [get], [post], [patch] and [delete] calls, carries the four
    default headers with their initial values: [post] and [patch] never
    overwrite them. *)
Theorem default_headers_on_every_request
  (send : request -> transport) (json_loads : string -> string + json)
  (url token : string) (ops : list Dv.op) (rq : request)
  (Hin : In rq (snd (Dv.run_ops send json_loads (Dv.init url token) ops))) :
  hget (req_headers rq) "Authorization" = Some ("Bearer " ++ token) /\
  hget (req_headers rq) "Accept" = Some "application/json" /\
  hget (req_headers rq) "OData-MaxVersion" = Some "4.0" /\
  hget (req_headers rq) "OData-Version" = Some "4.0".
Proof.
  revert rq Hin.
  apply (run_ops_headers
           (fun h => hget h "Authorization" = Some ("Bearer " ++ token) /\
                     hget h "Accept" = Some "application/json" /\
                     hget h "OData-MaxVersion" = Some "4.0" /\
                     hget h "OData-Version" = Some "4.0")).
  - intros h (H1 & H2 & H3 & H4).
    rewrite !hget_hset_other by reflexivity. auto.
  - intros h (H1 & H2 & H3 & H4).
    rewrite !hget_hset_other by reflexivity. auto.
  - simpl. repeat split.
Qed.

Lemma default_headers_on_every_request_witness :
  let send := fun _ : request => Resp (mkResponse 200 "" []) in
  let ops := [Dv.OpPost "workflows" (JObj []); Dv.OpPatch "workflows(1)" (JObj []);
              Dv.OpGet "workflows" None] in
  let rq := mkRequest "GET" "https://org.crm.dynamics.com/api/data/v9.2/workflows" None
              [("User-Agent", "python-requests/2.32.3");
               ("Accept-Encoding", "gzip, deflate"); ("Accept", "application/json");
               ("Connection", "keep-alive"); ("Authorization", "Bearer tok");
               ("OData-MaxVersion", "4.0"); ("OData-Version", "4.0");
               ("Content-Type", "application/json");
               ("Prefer", "return=representation")] None in
  In rq (snd (Dv.run_ops send (fun _ => inl "") (Dv.init "https://org.crm.dynamics.com" "tok") ops)) /\
  hget (req_headers rq) "Authorization" = Some ("Bearer " ++ "tok").
Proof.
  intros send ops rq.
  assert (Hin : In rq (snd (Dv.run_ops send (fun _ => inl "")
                              (Dv.init "https://org.crm.dynamics.com" "tok") ops)))
    by (vm_compute; auto).
  split; [exact Hin |].
  exact (proj1 (default_headers_on_every_request send (fun _ => inl "")
                  "https://org.crm.dynamics.com" "tok" ops rq Hin)).
Defined.

(** X6: once [post] has been called on a client, every request it sends
    afterwards, whatever the method, carries [Content-Type:
    application/json] and [Prefer: return=representation]. *)
Theorem write_headers_stick_after_post
  (send : request -> transport) (json_loads : string -> string + json)
  (c : Dv.DataverseClient) (endpoint : string) (data : json) (ops : list Dv.op)
  (rq : request)
  (Hin : In rq (snd (Dv.run_ops send json_loads c (Dv.OpPost endpoint data :: ops)))) :
  hget (req_headers rq) "Content-Type" = Some "application/json" /\
  hget (req_headers rq) "Prefer" = Some "return=representation".
Proof.
  set (P := fun h => hget h "Content-Type" = Some "application/json" /\
                     hget h "Prefer" = Some "return=representation").
  assert (Hpost : forall h, P h ->
     P (hset (hset h "Content-Type" "application/json") "Prefer" "return=representation")).
  { intros h _. unfold P. rewrite hget_hset_other by reflexivity.
    rewrite !hget_hset_same. auto. }
  assert (Hpatch : forall h, P h -> P (hset h "Content-Type" "application/json")).
  { intros h [_ H2]. unfold P. rewrite hget_hset_same, hget_hset_other by reflexivity.
    auto. }
  assert (Hc : P (hset (hset (Dv.session_headers c) "Content-Type" "application/json")
                    "Prefer" "return=representation")).
  { unfold P. rewrite hget_hset_other by reflexivity. rewrite !hget_hset_same. auto. }
  change (P (req_headers rq)).
  simpl in Hin.
  destruct (Dv.run_ops send json_loads _ ops) as [c2 rqs] eqn:Hrs.
  destruct Hin as [<-|Hin]; [exact Hc |].
  apply (run_ops_headers P send json_loads Hpost Hpatch ops
           (Dv.with_headers c (hset (hset (Dv.session_headers c) "Content-Type"
                                      "application/json") "Prefer" "return=representation"))
           Hc).
  rewrite Hrs. exact Hin.
Qed.

Lemma write_headers_stick_after_post_witness :
  let send := fun _ : request => Resp (mkResponse 204 "" []) in
  let c := Dv.init "https://org.crm.dynamics.com" "tok" in
  let rq := mkRequest "DELETE" "https://org.crm.dynamics.com/api/data/v9.2/workflows(1)" None
              [("User-Agent", "python-requests/2.32.3");
               ("Accept-Encoding", "gzip, deflate"); ("Accept", "application/json");
               ("Connection", "keep-alive"); ("Authorization", "Bearer tok");
               ("OData-MaxVersion", "4.0"); ("OData-Version", "4.0");
               ("Content-Type", "application/json");
               ("Prefer", "return=representation")] None in
  In rq (snd (Dv.run_ops send (fun _ => inl "") c
                [Dv.OpPost "workflows" (JObj []); Dv.OpDelete "workflows(1)"])) /\
  hget (req_headers rq) "Prefer" = Some "return=representation".
Proof.
  intros send c rq.
  assert (Hin : In rq (snd (Dv.run_ops send (fun _ => inl "") c
                              [Dv.OpPost "workflows" (JObj []); Dv.OpDelete "workflows(1)"])))
    by (vm_compute; auto).
  split; [exact Hin |].
  exact (proj2 (write_headers_stick_after_post send (fun _ => inl "") c "workflows"
                  (JObj []) [Dv.OpDelete "workflows(1)"] rq Hin)).
Defined.

(** The 204 branch of [post] on a header [base(guid)]. *)
Lemma post_204_entity_id_parse
  (send : request -> transport) (json_loads : string -> string + json)
  (c : Dv.DataverseClient) (endpoint : string) (data : json) (r : response)
  (base guid : string)
  (Hsend : forall rq, send rq = Resp r)
  (H204 : status_code r = 204%Z)
  (Hh : hget (resp_headers r) "OData-EntityId" = Some (base ++ "(" ++ guid ++ ")"))
  (Hbase : Py.contains "(" base = false)
  (Hg1 : Py.contains "(" guid = false)
  (Hg2 : Py.contains ")" guid = false) :
  Dv.result (Dv.post send json_loads c endpoint data) = inr (JObj [("id", JStr guid)]).
Proof.
  unfold Dv.post. simpl. rewrite Hsend.
  unfold raises_for_status. rewrite H204. simpl.
  unfold Dv.entity_id_result. rewrite Hh.
  set (h := (base ++ "(" ++ guid ++ ")")%string).
  assert (Hc : Py.contains "(" h = true)
    by (apply contains_app_l; apply contains_prefix).
  assert (Hne : String.eqb h "" = false) by (unfold h; destruct base; reflexivity).
  rewrite Hne, Hc. simpl negb. cbn [andb].
  rewrite split_nth1 by exact Hc.
  unfold h. simpl ("(" ++ guid ++ ")")%string.
  rewrite after_first_app by exact Hbase.
  rewrite upto_char_none
    by (rewrite contains_char_app, Hg1; reflexivity).
  rewrite split_nth0.
  change ")" with (String ")" "").
  rewrite upto_char_app by exact Hg2.
  reflexivity.
Qed.

(** X7: round trip of the OData-EntityId header: when a 204 answer to
    [post] carries [base(guid)], with no '(' in [base] and no parenthesis
    in [guid], the result is [{"id": guid}]. *)
Theorem post_204_entity_id_round_trip
  (send : request -> transport) (json_loads : string -> string + json)
  (c : Dv.DataverseClient) (endpoint : string) (data : json) (r : response)
  (base guid : string)
  (Hsend : forall rq, send rq = Resp r)
  (H204 : status_code r = 204%Z)
  (Hh : hget (resp_headers r) "OData-EntityId" = Some (base ++ "(" ++ guid ++ ")"))
  (Hbase : Py.contains "(" base = false)
  (Hg1 : Py.contains "(" guid = false)
  (Hg2 : Py.contains ")" guid = false) :
  Dv.result (Dv.post send json_loads c endpoint data) = inr (JObj [("id", JStr guid)]).
Proof.
  exact (post_204_entity_id_parse send json_loads c endpoint data r base guid
           Hsend H204 Hh Hbase Hg1 Hg2).
Qed.

Lemma post_204_entity_id_round_trip_witness :
  let base := "https://org.crm.dynamics.com/api/data/v9.2/workflows" in
  let guid := "29e2253b-cabc-f011-bbd3-000d3a8ba54e" in
  let r := mkResponse 204 "" [("OData-EntityId", base ++ "(" ++ guid ++ ")")] in
  (forall rq, (fun _ : request => Resp r) rq = Resp r) /\ status_code r = 204%Z /\
  hget (resp_headers r) "OData-EntityId" = Some (base ++ "(" ++ guid ++ ")") /\
  Py.contains "(" base = false /\ Py.contains "(" guid = false /\
  Py.contains ")" guid = false /\
  Dv.result (Dv.post (fun _ => Resp r) (fun _ => inl "")
               (Dv.init "https://org.crm.dynamics.com" "tok") "workflows" (JObj [])) =
    inr (JObj [("id", JStr guid)]).
Proof.
  intros base guid r.
  do 6 (split; [vm_compute; reflexivity |]).
  exact (post_204_entity_id_round_trip (fun _ => Resp r) (fun _ => inl "")
           (Dv.init "https://org.crm.dynamics.com" "tok") "workflows" (JObj []) r base guid
           (fun _ => eq_refl) eq_refl ltac:(vm_compute; reflexivity)
           ltac:(vm_compute; reflexivity) ltac:(vm_compute; reflexivity)
           ltac:(vm_compute; reflexivity)).
Defined.

(** ** config.py and client.py: credentials and the client factory *)

(** X8: the credential check passes exactly when token authentication or
    service-principal authentication is complete; user credentials alone
    never pass it. *)
Theorem missing_credentials_empty_iff (c : Cfg.Config) :
  Cfg.get_missing_credentials c = [] <->
  Cfg.has_token_auth c = true \/ Cfg.has_service_principal_auth c = true.
Proof.
  unfold Cfg.get_missing_credentials, Cfg.has_token_auth,
    Cfg.has_service_principal_auth. simpl.
  destruct (Py.truthy (Cfg.access_token c)), (Py.truthy (Cfg.dataverse_url c)),
    (Py.truthy (Cfg.client_id c)), (Py.truthy (Cfg.client_secret c)),
    (Py.truthy (Cfg.tenant_id c)); simpl;
    split; intro H; try discriminate; auto; destruct H; discriminate.
Qed.

Lemma service_principal_no_missing (c : Cfg.Config) :
  Cfg.has_service_principal_auth c = true -> Cfg.get_missing_credentials c = [].
Proof.
  unfold Cfg.get_missing_credentials, Cfg.has_service_principal_auth. simpl.
  destruct (Py.truthy (Cfg.access_token c)), (Py.truthy (Cfg.dataverse_url c)),
    (Py.truthy (Cfg.client_id c)), (Py.truthy (Cfg.client_secret c)),
    (Py.truthy (Cfg.tenant_id c)); simpl; intro H; try discriminate; reflexivity.
Qed.

Lemma token_no_missing (c : Cfg.Config) :
  Cfg.has_token_auth c = true -> Cfg.get_missing_credentials c = [].
Proof.
  unfold Cfg.get_missing_credentials, Cfg.has_token_auth. intros ->. reflexivity.
Qed.

Lemma fold_lines_keep (sub acc : string) (l : list string) :
  Py.contains sub acc = true ->
  Py.contains sub
    (fold_left (fun acc cred => acc ++ "  - " ++ cred ++ String "010" "") l acc) = true.
Proof.
  revert acc. induction l as [|x l IH]; intros acc H; simpl; [exact H |].
  apply IH. apply contains_app_r. exact H.
Qed.

Lemma fold_lines_in (n acc : string) (l : list string) :
  In n l ->
  Py.contains ("  - " ++ n ++ String "010" "")
    (fold_left (fun acc cred => acc ++ "  - " ++ cred ++ String "010" "") l acc) = true.
Proof.
  revert acc. induction l as [|x l IH]; intros acc Hin; [contradiction |].
  simpl. destruct Hin as [<-|Hin].
  - apply fold_lines_keep. apply contains_app_l. apply contains_self.
  - apply IH. exact Hin.
Qed.

(** X9: when [get_client()] stops at the credential check, its message
    holds a line ["  - NAME"] for every variable [get_missing_credentials()]
    reports, and no identity-provider call is made. *)
Theorem get_client_missing_lists_variables
  (idp : Factory.idp_call -> Factory.idp_reply) (w w1 : Factory.world)
  (c : Cfg.Config)
  (Hc : Factory.client_cache w = None)
  (Hg : Factory.get_config w = (c, w1))
  (Hm : Cfg.get_missing_credentials c <> []) :
  exists m, Factory.get_client idp w = (inl (ClientError m), w1) /\
    Factory.idp_log w1 = Factory.idp_log w /\
    forall n, In n (Cfg.get_missing_credentials c) ->
      Py.contains ("  - " ++ n ++ String "010" "") m = true.
Proof.
  exists (Factory.missing_message (Cfg.get_missing_credentials c)).
  split; [| split].
  - unfold Factory.get_client. rewrite Hc, Hg.
    destruct (Cfg.get_missing_credentials c); [contradiction | reflexivity].
  - destruct (get_config_spec _ _ _ Hg) as (_ & _ & _ & H). exact H.
  - intros n Hn. unfold Factory.missing_message.
    do 3 apply contains_app_l. apply contains_app_r.
    apply fold_lines_in. exact Hn.
Qed.

Lemma get_client_missing_lists_variables_witness :
  let idp := fun _ : Factory.idp_call => Factory.IdpDict [] in
  let w := Factory.mkWorld [("DATAVERSE_URL", "https://org.crm.dynamics.com");
                            ("DATAVERSE_CLIENT_ID", "app")] None [] None [] in
  Factory.client_cache w = None /\
  Factory.get_config w = (Cfg.from_env (Factory.env w), snd (Factory.get_config w)) /\
  Cfg.get_missing_credentials (Cfg.from_env (Factory.env w)) <> [] /\
  exists m, Factory.get_client idp w = (inl (ClientError m), snd (Factory.get_config w)) /\
    Factory.idp_log (snd (Factory.get_config w)) = Factory.idp_log w /\
    forall n, In n (Cfg.get_missing_credentials (Cfg.from_env (Factory.env w))) ->
      Py.contains ("  - " ++ n ++ String "010" "") m = true.
Proof.
  intros idp w.
  split; [reflexivity | split; [reflexivity | split; [vm_compute; discriminate |]]].
  exact (get_client_missing_lists_variables idp w _ _ eq_refl eq_refl
           ltac:(vm_compute; discriminate)).
Defined.

(** X10: with token authentication complete, [get_client()] makes no
    identity-provider call, even when service-principal credentials are set
    too: it allocates a client from the configured URL and token, whose
    Authorization header is ["Bearer " + token]. *)
Theorem get_client_token_auth_no_idp
  (idp : Factory.idp_call -> Factory.idp_reply) (w w1 : Factory.world)
  (c : Cfg.Config)
  (Hc : Factory.client_cache w = None)
  (Hg : Factory.get_config w = (c, w1))
  (Ht : Cfg.has_token_auth c = true) :
  let cl := Dv.init (Py.fmt_opt (Cfg.dataverse_url c)) (Py.fmt_opt (Cfg.access_token c)) in
  let '(r, w') := Factory.get_client idp w in
  r = inr (length (Factory.clients w)) /\
  Factory.idp_log w' = Factory.idp_log w /\
  nth_error (Factory.clients w') (length (Factory.clients w)) = Some cl /\
  hget (Dv.session_headers cl) "Authorization" =
    Some ("Bearer " ++ Py.fmt_opt (Cfg.access_token c)).
Proof.
  intro cl.
  destruct (get_config_spec _ _ _ Hg) as (_ & _ & Hcls & Hlog).
  unfold Factory.get_client. rewrite Hc, Hg, (token_no_missing c Ht), Ht.
  simpl. rewrite Hcls.
  split; [reflexivity | split; [exact Hlog | split]].
  - rewrite nth_error_app2 by lia. rewrite Nat.sub_diag. reflexivity.
  - reflexivity.
Qed.

Lemma get_client_token_auth_no_idp_witness :
  let idp := fun _ : Factory.idp_call => Factory.IdpRaise "unreachable" in
  let w := Factory.mkWorld [("DATAVERSE_URL", "https://org.crm.dynamics.com");
                            ("DATAVERSE_ACCESS_TOKEN", "eyJ0");
                            ("DATAVERSE_CLIENT_ID", "app"); ("DATAVERSE_CLIENT_SECRET", "s");
                            ("DATAVERSE_TENANT_ID", "t")] None [] None [] in
  Factory.client_cache w = None /\
  Factory.get_config w = (Cfg.from_env (Factory.env w), snd (Factory.get_config w)) /\
  Cfg.has_token_auth (Cfg.from_env (Factory.env w)) = true /\
  Factory.idp_log (snd (Factory.get_client idp w)) = [].
Proof.
  intros idp w.
  split; [reflexivity | split; [reflexivity | split; [reflexivity |]]].
  pose proof (get_client_token_auth_no_idp idp w _ _ eq_refl eq_refl eq_refl) as H.
  cbv zeta in H. destruct (Factory.get_client idp w) as [r w'].
  destruct H as (_ & Hl & _). simpl. rewrite Hl. reflexivity.
Defined.

Lemma get_client_allocates (idp : Factory.idp_call -> Factory.idp_reply)
  (w w' : Factory.world) (p : nat) :
  Factory.client_cache w = None ->
  Factory.get_client idp w = (inr p, w') ->
  p = length (Factory.clients w) /\
  length (Factory.clients w') = S (length (Factory.clients w)).
Proof.
  intros Hc. unfold Factory.get_client. rewrite Hc.
  destruct (Factory.get_config w) as [c w1] eqn:Hg.
  destruct (get_config_spec _ _ _ Hg) as (_ & _ & Hcls & _).
  destruct (negb _); [discriminate |].
  destruct (Cfg.has_token_auth c).
  { intro H. injection H. intros; subst. simpl. rewrite length_app, Hcls. simpl. lia. }
  destruct (Cfg.has_service_principal_auth c).
  { destruct (Factory.get_service_principal_token idp c w1) as [[e|t] w2] eqn:Hsp;
      [discriminate |].
    destruct (service_principal_token_replays _ _ _ _ _ Hsp) as (calls & -> & _).
    intro H. injection H. intros; subst. simpl. rewrite length_app, Hcls. simpl. lia. }
  destruct (Cfg.has_user_auth c).
  { destruct (Factory.get_user_token idp c w1) as [[e|t] w2] eqn:Hut; [discriminate |].
    destruct (user_token_replays _ _ _ _ _ Hut) as (calls & -> & _).
    intro H. injection H. intros; subst. simpl. rewrite length_app, Hcls. simpl. lia. }
  discriminate.
Qed.

(** X11: after [reset_client()], the next successful [get_client()]
    returns a new client object, never the one cached before the reset. *)
Theorem reset_client_gives_new_client
  (idp : Factory.idp_call -> Factory.idp_reply) (w w' w'' : Factory.world) (p p' : nat)
  (Hc : Factory.client_cache w = None)
  (H1 : Factory.get_client idp w = (inr p, w'))
  (H2 : Factory.get_client idp (Factory.reset_client w') = (inr p', w'')) :
  p' <> p /\ p' = length (Factory.clients w').
Proof.
  destruct (get_client_allocates idp w w' p Hc H1) as [Hp Hl].
  destruct (get_client_allocates idp (Factory.reset_client w') w'' p' eq_refl H2)
    as [Hp' _].
  simpl in Hp'. split; [lia | exact Hp'].
Qed.

Lemma reset_client_gives_new_client_witness :
  let idp := fun _ : Factory.idp_call => Factory.IdpDict [("access_token", "eyJ0")] in
  let w := Factory.mkWorld [("DATAVERSE_URL", "https://org.crm.dynamics.com");
                            ("DATAVERSE_CLIENT_ID", "app"); ("DATAVERSE_CLIENT_SECRET", "s");
                            ("DATAVERSE_TENANT_ID", "t")] None [] None [] in
  let w' := snd (Factory.get_client idp w) in
  let w'' := snd (Factory.get_client idp (Factory.reset_client w')) in
  Factory.client_cache w = None /\
  Factory.get_client idp w = (inr 0%nat, w') /\
  Factory.get_client idp (Factory.reset_client w') = (inr 1%nat, w'') /\
  (1%nat <> 0%nat /\ 1%nat = length (Factory.clients w')).
Proof.
  intros idp w w' w''.
  assert (H1 : Factory.get_client idp w = (inr 0%nat, w')) by (vm_compute; reflexivity).
  assert (H2 : Factory.get_client idp (Factory.reset_client w') = (inr 1%nat, w''))
    by (vm_compute; reflexivity).
  split; [reflexivity | split; [exact H1 | split; [exact H2 |]]].
  exact (reset_client_gives_new_client idp w w' w'' 0 1 eq_refl H1 H2).
Defined.

Lemma service_principal_url (c : Cfg.Config) :
  Cfg.has_service_principal_auth c = true -> Py.truthy (Cfg.dataverse_url c) = true.
Proof.
  unfold Cfg.has_service_principal_auth. simpl.
  destruct (Py.truthy (Cfg.dataverse_url c)); [reflexivity | discriminate].
Qed.

Lemma auth_scope_ok (c : Cfg.Config) :
  Py.truthy (Cfg.dataverse_url c) = true ->
  Cfg.get_auth_scope c = inr (Py.fmt_opt (Cfg.dataverse_url c) ++ "/.default").
Proof. intro H. unfold Cfg.get_auth_scope. rewrite H. reflexivity. Qed.

(** X12: when the identity provider answers the client-credentials request
    with an error dict, [get_client()] fails with
    ["Failed to authenticate with service principal: Failed to acquire token: "]
    followed by the dict's [error_description], else its [error], else
    ["Unknown error"]. *)
Theorem service_principal_failure_message
  (idp : Factory.idp_call -> Factory.idp_reply) (w w1 : Factory.world)
  (c : Cfg.Config) (d : list (string * string))
  (Hc : Factory.client_cache w = None)
  (Hg : Factory.get_config w = (c, w1))
  (Ht : Cfg.has_token_auth c = false)
  (Hs : Cfg.has_service_principal_auth c = true)
  (Hd : idp (Factory.ClientCredentials (Factory.authority c)
               (Py.fmt_opt (Cfg.client_id c)) (Py.fmt_opt (Cfg.client_secret c))
               (Py.fmt_opt (Cfg.dataverse_url c) ++ "/.default")) = Factory.IdpDict d)
  (Hno : Py.assoc "access_token" d = None) :
  exists err,
    fst (Factory.get_client idp w) =
      inl (ClientError ("Failed to authenticate with service principal: Failed to acquire token: "
                        ++ err)) /\
    (Py.assoc "error_description" d = Some err \/
     (Py.assoc "error_description" d = None /\
      (Py.assoc "error" d = Some err \/
       (Py.assoc "error" d = None /\ err = "Unknown error")))).
Proof.
  unfold Factory.get_client. rewrite Hc, Hg, (service_principal_no_missing c Hs), Ht, Hs.
  unfold Factory.get_service_principal_token.
  rewrite (auth_scope_ok c (service_principal_url c Hs)), Hd.
  simpl. rewrite Hno.
  destruct (Py.assoc "error_description" d) as [e|] eqn:E1.
  - exists e. split; [reflexivity | auto].
  - destruct (Py.assoc "error" d) as [e|] eqn:E2.
    + exists e. split; [reflexivity | auto].
    + exists "Unknown error". split; [reflexivity | auto].
Qed.

Lemma service_principal_failure_message_witness :
  let env := [("DATAVERSE_URL", "https://org.crm.dynamics.com");
              ("DATAVERSE_CLIENT_ID", "app"); ("DATAVERSE_CLIENT_SECRET", "bad");
              ("DATAVERSE_TENANT_ID", "t")] in
  let d := [("error", "invalid_client");
            ("error_description", "AADSTS7000215: Invalid client secret provided.")] in
  let idp := fun _ : Factory.idp_call => Factory.IdpDict d in
  let w := Factory.mkWorld env None [] None [] in
  let c := Cfg.from_env env in
  Factory.client_cache w = None /\
  Factory.get_config w = (c, snd (Factory.get_config w)) /\
  Cfg.has_token_auth c = false /\ Cfg.has_service_principal_auth c = true /\
  Py.assoc "access_token" d = None /\
  exists err,
    fst (Factory.get_client idp w) =
      inl (ClientError ("Failed to authenticate with service principal: Failed to acquire token: "
                        ++ err)) /\
    (Py.assoc "error_description" d = Some err \/
     (Py.assoc "error_description" d = None /\
      (Py.assoc "error" d = Some err \/
       (Py.assoc "error" d = None /\ err = "Unknown error")))).
Proof.
  intros env d idp w c.
  do 5 (split; [reflexivity |]).
  exact (service_principal_failure_message idp w _ c d eq_refl eq_refl eq_refl eq_refl
           eq_refl eq_refl).
Defined.

(** X13: the environment is read once: after the configuration has been
    loaded, a change of the process environment does not affect
    [get_client()] (until [reset_config()]), which behaves as on the old
    environment. *)
Theorem config_read_once
  (idp : Factory.idp_call -> Factory.idp_reply) (w : Factory.world) (c : Cfg.Config)
  (e : Cfg.env)
  (Hcfg : Factory.config_cache w = Some c) :
  Factory.get_client idp (ConfigCache.set_env w e) =
    (fst (Factory.get_client idp w), ConfigCache.set_env (snd (Factory.get_client idp w)) e).
Proof.
  unfold Factory.get_client.
  change (Factory.client_cache (ConfigCache.set_env w e)) with (Factory.client_cache w).
  destruct (Factory.client_cache w) as [p|] eqn:Hc; [reflexivity |].
  rewrite (get_config_cached w c Hcfg).
  rewrite (get_config_cached (ConfigCache.set_env w e) c Hcfg).
  destruct (negb _); [reflexivity |].
  destruct (Cfg.has_token_auth c); [reflexivity |].
  destruct (Cfg.has_service_principal_auth c).
  { unfold Factory.get_service_principal_token.
    destruct (Cfg.get_auth_scope c); [reflexivity |].
    destruct (Factory.token_of_reply _); reflexivity. }
  destruct (Cfg.has_user_auth c); [| reflexivity].
  unfold Factory.get_user_token.
  destruct (Cfg.get_auth_scope c); [reflexivity |].
  destruct (Factory.token_of_reply _); reflexivity.
Qed.

Lemma config_read_once_witness :
  let idp := fun _ : Factory.idp_call => Factory.IdpDict [("access_token", "eyJ0")] in
  let w0 := Factory.mkWorld [("DATAVERSE_URL", "https://org.crm.dynamics.com");
                             ("DATAVERSE_CLIENT_ID", "app"); ("DATAVERSE_CLIENT_SECRET", "s");
                             ("DATAVERSE_TENANT_ID", "t")] None [] None [] in
  let w := snd (Factory.get_config w0) in
  Factory.config_cache w = Some (Cfg.from_env (Factory.env w0)) /\
  fst (Factory.get_client idp (ConfigCache.set_env w [])) = inr 0%nat.
Proof.
  intros idp w0 w. split; [reflexivity |].
  rewrite (config_read_once idp w (Cfg.from_env (Factory.env w0)) [] eq_refl).
  vm_compute. reflexivity.
Defined.

(** ** commands/auth.py *)

(** X14: with both a token and complete service-principal credentials,
    [auth test] reports and exercises the service principal (one
    client-credentials call), while [auth token --show] and [get_client()]
    use the configured token without any identity-provider call. *)
Theorem auth_test_prefers_service_principal
  (idp : Factory.idp_call -> Factory.idp_reply) (w w1 : Factory.world) (c : Cfg.Config)
  (Hc : Factory.client_cache w = None)
  (Hg : Factory.get_config w = (c, w1))
  (Ht : Cfg.has_token_auth c = true)
  (Hs : Cfg.has_service_principal_auth c = true) :
  let q := AuthCommands.service_principal_call c
             (Py.fmt_opt (Cfg.dataverse_url c) ++ "/.default") in
  (let '(_, prints, w') := AuthCommands.test_auth idp w in
   Factory.idp_log w' = (Factory.idp_log w ++ [q])%list /\
   hd_error prints =
     Some (AuthCommands.PrintAuthJson
             (JObj [("auth_method", JStr "service_principal");
                    ("client_id", AuthCommands.opt_json (Cfg.client_id c))]))) /\
  fst (AuthCommands.get_token idp true w) =
    inr (JObj [("access_token", AuthCommands.opt_json (Cfg.access_token c))]) /\
  Factory.idp_log (snd (AuthCommands.get_token idp true w)) = Factory.idp_log w /\
  Factory.idp_log (snd (Factory.get_client idp w)) = Factory.idp_log w.
Proof.
  intro q.
  destruct (get_config_spec _ _ _ Hg) as (_ & _ & _ & Hlog).
  split; [| split; [| split]].
  - unfold AuthCommands.test_auth. rewrite Hg, (token_no_missing c Ht), Hs.
    rewrite (auth_scope_ok c (service_principal_url c Hs)).
    unfold AuthCommands.acquire. fold q.
    destruct (idp q) as [m|d]; [| destruct (Py.assoc "access_token" d)];
      simpl; rewrite Hlog; split; reflexivity.
  - unfold AuthCommands.get_token. rewrite Hg, (token_no_missing c Ht).
    unfold AuthCommands.token_step. rewrite Ht. reflexivity.
  - unfold AuthCommands.get_token. rewrite Hg, (token_no_missing c Ht).
    unfold AuthCommands.token_step. rewrite Ht. exact Hlog.
  - unfold Factory.get_client. rewrite Hc, Hg, (token_no_missing c Ht), Ht.
    exact Hlog.
Qed.

Lemma auth_test_prefers_service_principal_witness :
  let env := [("DATAVERSE_URL", "https://org.crm.dynamics.com");
              ("DATAVERSE_ACCESS_TOKEN", "eyJ0");
              ("DATAVERSE_CLIENT_ID", "app"); ("DATAVERSE_CLIENT_SECRET", "s");
              ("DATAVERSE_TENANT_ID", "t")] in
  let idp := fun _ : Factory.idp_call =>
               Factory.IdpDict [("access_token", "fresh"); ("token_type", "Bearer")] in
  let w := Factory.mkWorld env None [] None [] in
  let c := Cfg.from_env env in
  Factory.client_cache w = None /\
  Factory.get_config w = (c, snd (Factory.get_config w)) /\
  Cfg.has_token_auth c = true /\ Cfg.has_service_principal_auth c = true /\
  fst (AuthCommands.get_token idp true w) = inr (JObj [("access_token", JStr "eyJ0")]).
Proof.
  intros env idp w c.
  do 4 (split; [reflexivity |]).
  destruct (auth_test_prefers_service_principal idp w _ c eq_refl eq_refl eq_refl eq_refl)
    as (_ & H & _).
  exact H.
Defined.

(** ** delete_connector.py *)

(** X15: a failing dependency lookup does not stop the deletion: the
    script still sends the DELETE, and its result alone decides the
    outcome (True on success, False on a [ClientError]). *)
Theorem dependency_lookup_failure_does_not_block_delete
  (api_get : string -> Commands.params -> exn + json)
  (api_write : FlowWrites.write_call -> exn + json)
  (cid m : string) (cd : list (string * json))
  (Hget : api_get (DeleteConnector.connector_endpoint cid) DeleteConnector.connector_params
          = inr (JObj cd))
  (Hdep : api_write (DeleteConnector.dependencies_request cid) = inl (ClientError m)) :
  let ep := DeleteConnector.connector_endpoint cid in
  let o := DeleteConnector.delete_connector api_get api_write (inr tt) cid in
  DeleteConnector.calls o =
    [DeleteConnector.SGet ep DeleteConnector.connector_params;
     DeleteConnector.SWrite (DeleteConnector.dependencies_request cid);
     DeleteConnector.SWrite (FlowWrites.WDelete ep)] /\
  DeleteConnector.returned o =
    match api_write (FlowWrites.WDelete ep) with
    | inr _ => inr true
    | inl (ClientError _) => inr false
    | inl e => inl e
    end.
Proof.
  intros ep o. unfold o, ep, DeleteConnector.delete_connector. cbv zeta.
  rewrite Hget.
  unfold DeleteConnector.retrieve_dependencies. rewrite Hdep.
  destruct (api_write (FlowWrites.WDelete (DeleteConnector.connector_endpoint cid))) as [[m'|k m']|j]; split; reflexivity.
Qed.

Lemma dependency_lookup_failure_does_not_block_delete_witness :
  let api_get := fun (_ : string) (_ : Commands.params) =>
                   inr (JObj [("displayname", JStr "My Connector")]) : exn + json in
  let api_write := fun q : FlowWrites.write_call =>
                     match q with
                     | FlowWrites.WPost _ _ => inl (ClientError "HTTP 404: Resource not found")
                     | _ => inr JNull
                     end in
  api_get (DeleteConnector.connector_endpoint "c1") DeleteConnector.connector_params =
    inr (JObj [("displayname", JStr "My Connector")]) /\
  api_write (DeleteConnector.dependencies_request "c1") =
    inl (ClientError "HTTP 404: Resource not found") /\
  DeleteConnector.returned (DeleteConnector.delete_connector api_get api_write (inr tt) "c1")
    = inr true.
Proof.
  intros api_get api_write. split; [reflexivity | split; [reflexivity |]].
  destruct (dependency_lookup_failure_does_not_block_delete api_get api_write "c1"
              "HTTP 404: Resource not found" [("displayname", JStr "My Connector")]
              eq_refl eq_refl) as [_ H].
  exact H.
Defined.

(** X16: [delete_connector] returns True exactly when [get_client()]
    succeeded, the connector GET returned a record, the dependency lookup
    raised nothing but a [ClientError], and the DELETE succeeded; the
    dependency hint is printed only when it returns False. *)
Theorem delete_connector_true_iff
  (api_get : string -> Commands.params -> exn + json)
  (api_write : FlowWrites.write_call -> exn + json)
  (client : exn + unit) (cid : string) :
  let ep := DeleteConnector.connector_endpoint cid in
  let o := DeleteConnector.delete_connector api_get api_write client cid in
  (DeleteConnector.returned o = inr true <->
   client = inr tt /\
   (exists cd, api_get ep DeleteConnector.connector_params = inr (JObj cd)) /\
   (forall k m, api_write (DeleteConnector.dependencies_request cid) <> inl (PyError k m)) /\
   (exists j, api_write (FlowWrites.WDelete ep) = inr j)) /\
  (DeleteConnector.dependency_hint o = true -> DeleteConnector.returned o = inr false).
Proof.
  intros ep o.
  unfold o, DeleteConnector.delete_connector. cbv zeta. fold ep.
  destruct client as [e|[]];
    [| destruct (api_get ep DeleteConnector.connector_params)
         as [e|[| b | n | s | l | cd]] eqn:Hg;
       try (unfold DeleteConnector.retrieve_dependencies;
            destruct (api_write (DeleteConnector.dependencies_request cid))
              as [[m|k m]|dj] eqn:Hd;
            try destruct (api_write (FlowWrites.WDelete ep)) as [e|j] eqn:Hdel)].
  all: simpl; try (destruct e; simpl).
  all: split;
    [ split;
      [ intro H;
        (discriminate ||
         (split; [reflexivity | split; [eauto | split; [intros k0 m0 Hx; congruence | eauto]]]))
      | intros (Hcl & (cd' & Hcd) & Hdp & (j' & Hj));
        (congruence || (exfalso; eapply Hdp; eassumption)) ]
    | intro H; (discriminate || reflexivity) ].
Qed.

(** X17: composed with [DataverseClient.delete]: when the DELETE is
    answered with a status in 400..599 whose body, lowercased, contains
    "referenced by", the script returns False and prints the dependency
    hint (the dependency lookup having raised nothing but a [ClientError]). *)
Theorem delete_conflict_shows_dependency_hint
  (api_get : string -> Commands.params -> exn + json)
  (api_write : FlowWrites.write_call -> exn + json)
  (send : request -> transport) (c : Dv.DataverseClient)
  (cid : string) (cd : list (string * json)) (r : response)
  (Hget : api_get (DeleteConnector.connector_endpoint cid) DeleteConnector.connector_params
          = inr (JObj cd))
  (Hdep : forall k m, api_write (DeleteConnector.dependencies_request cid) <> inl (PyError k m))
  (Hdel : forall ep, api_write (FlowWrites.WDelete ep) =
            match Dv.result (Dv.delete send c ep) with
            | inl e => inl e | inr _ => inr JNull end)
  (Hsend : forall rq, send rq = Resp r)
  (Hst : (400 <= status_code r < 600)%Z)
  (Hbody : Py.contains "referenced by" (Py.lower (text r)) = true) :
  let o := DeleteConnector.delete_connector api_get api_write (inr tt) cid in
  DeleteConnector.returned o = inr false /\ DeleteConnector.dependency_hint o = true.
Proof.
  intro o. unfold o, DeleteConnector.delete_connector. cbv zeta. rewrite Hget.
  assert (Hd : api_write (FlowWrites.WDelete (DeleteConnector.connector_endpoint cid)) =
               inl (Dv.http_error r)).
  { rewrite Hdel. unfold Dv.delete. simpl. rewrite Hsend, (raises_for_status_range r Hst).
    reflexivity. }
  assert (Hhint : Py.contains "referenced by" (Py.lower (exn_str (Dv.http_error r))) = true).
  { unfold exn_str, Dv.http_error. rewrite !lower_app.
    do 3 apply contains_app_l. exact Hbody. }
  unfold DeleteConnector.retrieve_dependencies.
  destruct (api_write (DeleteConnector.dependencies_request cid)) as [[m|k m]|dj] eqn:Hd0.
  - rewrite Hd. simpl. simpl in Hhint. rewrite Hhint. split; reflexivity.
  - exfalso. exact (Hdep k m eq_refl).
  - rewrite Hd. simpl. simpl in Hhint. rewrite Hhint. split; reflexivity.
Qed.

Lemma delete_conflict_shows_dependency_hint_witness :
  let r := mkResponse 400 "Connector cannot be deleted: it is Referenced By flow 'Daily sync'." [] in
  let send := fun _ : request => Resp r in
  let c := Dv.init "https://org.crm.dynamics.com" "tok" in
  let api_get := fun (_ : string) (_ : Commands.params) =>
                   inr (JObj [("displayname", JStr "My Connector")]) : exn + json in
  let api_write := fun q : FlowWrites.write_call =>
                     match q with
                     | FlowWrites.WDelete ep =>
                         match Dv.result (Dv.delete send c ep) with
                         | inl e => inl e | inr _ => inr JNull end
                     | _ => inr (JObj [])
                     end in
  (forall k m, api_write (DeleteConnector.dependencies_request "c1") <> inl (PyError k m)) /\
  (400 <= status_code r < 600)%Z /\
  Py.contains "referenced by" (Py.lower (text r)) = true /\
  DeleteConnector.dependency_hint
    (DeleteConnector.delete_connector api_get api_write (inr tt) "c1") = true.
Proof.
  intros r send c api_get api_write.
  split; [intros k m; discriminate | split; [simpl; lia | split; [vm_compute; reflexivity |]]].
  destruct (delete_conflict_shows_dependency_hint api_get api_write send c "c1"
              [("displayname", JStr "My Connector")] r eq_refl
              ltac:(intros k m; discriminate) (fun _ => eq_refl) (fun _ => eq_refl)
              ltac:(simpl; lia) ltac:(vm_compute; reflexivity)) as [_ H].
  exact H.
Defined.

(** ** commands/flow.py and commands/solution.py: the listing commands *)

Lemma map_exn_forall2 (f : json -> exn + json) (l l' : list json) :
  Commands.map_exn f l = inr l' -> Forall2 (fun x y => f x = inr y) l l'.
Proof.
  revert l'. induction l as [|x l IH]; intros l' H; simpl in H.
  - injection H as <-. constructor.
  - destruct (f x) as [e|y] eqn:Hf; [discriminate |].
    destruct (Commands.map_exn f l) as [e|ys] eqn:Hm; [discriminate |].
    injection H as <-. constructor; [exact Hf | apply IH; reflexivity].
Qed.

Lemma filter_by_solution_dicts (fs : list json) (sid : json)
  (H : Forall (fun f => exists d, f = JObj d) fs) :
  Commands.filter_by_solution fs sid =
    inr (filter (fun f => match f with
                          | JObj d => py_eq (get d "solutionid") sid
                          | _ => false end) fs).
Proof.
  induction H as [|f fs [d ->] _ IH]; [reflexivity |].
  simpl. rewrite IH. destruct (py_eq (get d "solutionid") sid); reflexivity.
Qed.

Lemma truthy_some (s : string) : s <> "" -> Py.truthy (Some s) = true.
Proof.
  intro H. simpl. apply String.eqb_neq in H. rewrite H. reflexivity.
Qed.

Lemma truthy_opt_false (o : option string) :
  Py.truthy o = false ->
  Json.truthy (match o with Some s => JStr s | None => JNull end) = false.
Proof. destruct o as [s|]; simpl; [intro H; exact H | reflexivity]. Qed.

(** X18: [flow list --solution NAME] with a resolved solution keeps
    exactly the fetched flows whose "solutionid" equals (Python [==]) the
    first solution's "solutionid", in their order; it issues the
    "workflows" GET and then the "solutions" GET, nothing else. *)
Theorem list_flows_solution_filter
  (api_get : string -> Commands.params -> exn + json)
  (sol : string) (state : option string) (r s : json) (fs : list json)
  (sd : list (string * json)) (rest : list json)
  (Hsol : sol <> "")
  (Hw : api_get "workflows" (Commands.flow_params state) = inr r)
  (Hf : Commands.format_response r = JArr fs)
  (Hdicts : Forall (fun f => exists d, f = JObj d) fs)
  (Hs : api_get "solutions" (Commands.solution_params sol) = inr s)
  (Hsd : Commands.format_response s = JArr (JObj sd :: rest)) :
  Commands.list_flows api_get (Some sol) state false [] =
    (inr (Commands.PrintJson
            (JArr (filter (fun f => match f with
                                    | JObj d => py_eq (get d "solutionid")
                                                      (get sd "solutionid")
                                    | _ => false end) fs))),
     [("workflows", Commands.flow_params state);
      ("solutions", Commands.solution_params sol)]).
Proof.
  unfold Commands.list_flows, Commands.bind, Commands.client_get,
    Commands.ret, Commands.lift, Commands.raise.
  rewrite Hw. cbn beta iota zeta. rewrite Hf, (truthy_some sol Hsol).
  change (Py.fmt_opt (Some sol)) with sol. cbn [andb Commands.is_list]. rewrite Hs.
  cbn beta iota zeta. rewrite Hsd. cbn [Json.truthy length Nat.eqb negb].
  cbn [Commands.first_solution_id].
  unfold Commands.ret. cbn beta iota. rewrite (filter_by_solution_dicts fs _ Hdicts). reflexivity.
Qed.

Lemma list_flows_solution_filter_witness :
  let f1 := JObj [("name", JStr "f1"); ("solutionid", JStr "s1")] in
  let f2 := JObj [("name", JStr "f2"); ("solutionid", JStr "s2")] in
  let sols := JObj [("value", JArr [JObj [("solutionid", JStr "s1")]])] in
  let api := fun (ep : string) (_ : Commands.params) =>
               if String.eqb ep "solutions" then inr sols : exn + json
               else inr (JObj [("value", JArr [f1; f2])]) in
  Forall (fun f => exists d, f = JObj d) [f1; f2] /\
  Commands.list_flows api (Some "Sol") None false [] =
    (inr (Commands.PrintJson (JArr [f1])),
     [("workflows", Commands.flow_params None);
      ("solutions", Commands.solution_params "Sol")]).
Proof.
  intros f1 f2 sols api.
  assert (Hd : Forall (fun f => exists d, f = JObj d) [f1; f2])
    by (constructor; [eexists; reflexivity |
                      constructor; [eexists; reflexivity | constructor]]).
  split; [exact Hd |].
  exact (list_flows_solution_filter api "Sol" None (JObj [("value", JArr [f1; f2])])
           sols [f1; f2] [("solutionid", JStr "s1")] [] ltac:(discriminate)
           eq_refl eq_refl Hd eq_refl eq_refl).
Defined.

(** X19: [flow list] issues the "workflows" GET first; the only other
    request it can make is one "solutions" GET for the friendly name, and
    only when [--solution] is given and non-empty. *)
Theorem list_flows_queries
  (api_get : string -> Commands.params -> exn + json)
  (solution state : option string) (table_format : bool) :
  let calls := snd (Commands.list_flows api_get solution state table_format []) in
  calls = [("workflows", Commands.flow_params state)] \/
  (Py.truthy solution = true /\
   calls = [("workflows", Commands.flow_params state);
            ("solutions", Commands.solution_params (Py.fmt_opt solution))]).
Proof.
  unfold Commands.list_flows, Commands.bind, Commands.client_get,
    Commands.ret, Commands.lift, Commands.raise.
  destruct (api_get "workflows" (Commands.flow_params state)) as [e|r];
    [left; reflexivity |].
  cbn beta iota zeta.
  destruct (Py.truthy solution) eqn:Ht; cbn [andb].
  2: left; destruct (Commands.show _ _); reflexivity.
  destruct (Commands.is_list (Commands.format_response r)).
  2: left; destruct (Commands.show _ _); reflexivity.
  right. split; [reflexivity |].
  unfold Commands.ret.
  repeat (cbn beta iota zeta;
          match goal with
          | |- context [match ?x with _ => _ end] =>
              lazymatch type of x with prod _ _ => fail | _ => destruct x end
          end);
    reflexivity.
Qed.

(** X20: [solution flows --id ID] with a non-empty id never looks the
    solution up by name: its first request is the "solutioncomponents" GET
    filtered on that id, and every later request is a "workflows" GET. *)
Theorem solution_flows_id_skips_lookup
  (api_get : string -> Commands.params -> exn + json)
  (name : option string) (id : string) (table_format : bool)
  (Hid : id <> "") :
  exists ws,
    snd (Commands.list_solution_flows api_get name (Some id) table_format []) =
      ("solutioncomponents", Commands.component_params (JStr id)) :: ws /\
    (forall x, In x ws -> fst x = "workflows").
Proof.
  assert (Hj : Json.truthy (JStr id) = true)
    by (simpl; apply String.eqb_neq in Hid; rewrite Hid; reflexivity).
  unfold Commands.list_solution_flows. cbv zeta. rewrite Hj.
  cbn [negb]. rewrite andb_false_r.
  unfold Commands.bind at 1, Commands.ret. cbn beta iota. rewrite Hj. cbn [negb].
  unfold Commands.bind.
  destruct (Commands.flows_of_solution api_get (JStr id) []) as [r calls] eqn:Hf.
  destruct (flows_of_solution_calls api_get _ _ _ _ Hf) as (ws & Hc & Hws).
  exists ws. simpl in Hc.
  destruct r as [e|fl];
    [| unfold Commands.lift; destruct (Commands.show _ _)];
    simpl; rewrite Hc; auto.
Qed.

Lemma solution_flows_id_skips_lookup_witness :
  let api := fun (ep : string) (_ : Commands.params) =>
               if String.eqb ep "solutioncomponents"
               then inr (JObj [("value", JArr [JObj [("objectid", JStr "w1")]])])
                      : exn + json
               else inr (JObj [("value", JArr [])]) in
  "5f6a" <> "" /\
  exists ws,
    snd (Commands.list_solution_flows api (Some "Other") (Some "5f6a") false []) =
      ("solutioncomponents", Commands.component_params (JStr "5f6a")) :: ws /\
    (forall x, In x ws -> fst x = "workflows").
Proof.
  intro api. split; [discriminate |].
  exact (solution_flows_id_skips_lookup api (Some "Other") "5f6a" false
           ltac:(discriminate)).
Defined.

(** X21: [solution get], [solution components] and [solution flows] with
    neither a non-empty [--id] nor a non-empty [--name] exit with code 1
    before sending any request. *)
Theorem solution_commands_need_id_or_name
  (api_get : string -> Commands.params -> exn + json)
  (name id : option string) (component_type : option string) (table_format : bool)
  (Hn : Py.truthy name = false) (Hi : Py.truthy id = false) :
  ReadCommands.get_solution api_get id name [] = (inl (Commands.Exit 1), []) /\
  ReadCommands.list_solution_components api_get id name component_type [] =
    (inl (Commands.Exit 1), []) /\
  Commands.list_solution_flows api_get name id table_format [] =
    (inl (Commands.Exit 1), []).
Proof.
  pose proof (truthy_opt_false id Hi) as Hj.
  unfold ReadCommands.get_solution, ReadCommands.list_solution_components,
    Commands.list_solution_flows.
  cbv zeta. rewrite Hi, Hn. cbn [andb].
  unfold Commands.bind, Commands.ret, Commands.raise. rewrite Hj.
  split; [reflexivity | split; reflexivity].
Qed.

Lemma solution_commands_need_id_or_name_witness :
  let api := fun (_ : string) (_ : Commands.params) => inr (JObj []) : exn + json in
  Py.truthy None = false /\ Py.truthy (Some "") = false /\
  ReadCommands.get_solution api (Some "") None [] = (inl (Commands.Exit 1), []) /\
  ReadCommands.list_solution_components api (Some "") None None [] =
    (inl (Commands.Exit 1), []) /\
  Commands.list_solution_flows api None (Some "") false [] =
    (inl (Commands.Exit 1), []).
Proof.
  intro api. split; [reflexivity | split; [reflexivity |]].
  exact (solution_commands_need_id_or_name api None (Some "") None false
           eq_refl eq_refl).
Defined.

(** X22: [solution components --name NAME] and [solution flows --name
    NAME] without a non-empty [--id] exit with code 1 right after the
    "solutions" lookup when it finds no solution (or the first one has no
    solution id); no other request is sent. *)
Theorem solution_unknown_name_exits
  (api_get : string -> Commands.params -> exn + json)
  (n : string) (id component_type : option string) (table_format : bool) (s : json)
  (Hn : n <> "") (Hi : Py.truthy id = false)
  (Hs : api_get "solutions" (Commands.solution_params n) = inr s)
  (Hnot : Commands.is_list (Commands.format_response s) &&
          Json.truthy (Commands.format_response s) = false \/
          exists sd rest, Commands.format_response s = JArr (JObj sd :: rest) /\
                          Json.truthy (get sd "solutionid") = false) :
  ReadCommands.list_solution_components api_get id (Some n) component_type [] =
    (inl (Commands.Exit 1), [("solutions", Commands.solution_params n)]) /\
  Commands.list_solution_flows api_get (Some n) id table_format [] =
    (inl (Commands.Exit 1), [("solutions", Commands.solution_params n)]).
Proof.
  pose proof (truthy_opt_false id Hi) as Hj.
  unfold ReadCommands.list_solution_components, Commands.list_solution_flows.
  cbv zeta. rewrite Hj, (truthy_some n Hn). cbn [negb andb]. simpl Py.fmt_opt.
  unfold Commands.bind, Commands.client_get, Commands.ret, Commands.raise,
    Commands.lift.
  rewrite Hs. cbn beta iota zeta.
  destruct Hnot as [H | (sd & rest & Hf & Ht)].
  - rewrite H. split; reflexivity.
  - rewrite Hf. cbn [Commands.is_list Json.truthy length Nat.eqb negb andb
                     Commands.first_solution_id].
    unfold Commands.ret. cbn beta iota. rewrite Ht. split; reflexivity.
Qed.

Lemma solution_unknown_name_exits_witness :
  let api := fun (_ : string) (_ : Commands.params) =>
               inr (JObj [("value", JArr [])]) : exn + json in
  "Missing" <> "" /\ Py.truthy None = false /\
  ReadCommands.list_solution_components api None (Some "Missing") None [] =
    (inl (Commands.Exit 1), [("solutions", Commands.solution_params "Missing")]) /\
  Commands.list_solution_flows api (Some "Missing") None true [] =
    (inl (Commands.Exit 1), [("solutions", Commands.solution_params "Missing")]).
Proof.
  intro api. split; [discriminate | split; [reflexivity |]].
  exact (solution_unknown_name_exits api "Missing" None None true
           (JObj [("value", JArr [])]) ltac:(discriminate) eq_refl eq_refl
           (or_introl eq_refl)).
Defined.

(** X23: in table mode the listing tail (of [flow list] and [solution
    flows]) shows the table columns name, workflowid, state, modifiedon
    over the fetched list, one row per flow: each row is the flow's dict
    with "state" set to "Activated" when its statecode equals 1 (Python
    [==], so [True] counts) and "Draft" otherwise, all other keys kept. *)
Theorem flow_table_rows (v rows : json) (cols : list string)
  (H : Commands.show true v = inr (Commands.PrintTable rows cols)) :
  cols = ["name"; "workflowid"; "state"; "modifiedon"] /\
  exists fs fs', v = JArr fs /\ rows = JArr fs' /\
    Forall2 (fun f f' => exists d d', f = JObj d /\ f' = JObj d' /\
               get d' "state" =
                 JStr (if py_eq (get d "statecode") (JNum 1)
                       then "Activated" else "Draft") /\
               (forall k, k <> "state" -> get d' k = get d k)) fs fs'.
Proof.
  unfold Commands.show in H.
  destruct v as [| | | | fs |]; try discriminate.
  destruct (Commands.map_exn Commands.add_state fs) as [e|fs'] eqn:Hm;
    [discriminate |].
  injection H as <- <-. split; [reflexivity |].
  exists fs, fs'. split; [reflexivity | split; [reflexivity |]].
  apply map_exn_forall2 in Hm. eapply Forall2_impl; [| exact Hm].
  intros f f' Hf. destruct f as [| | | | | d]; try discriminate.
  injection Hf as <-. exists d; eexists. split; [reflexivity | split; [reflexivity |]].
  split; [apply get_set_same | intros k Hk; apply get_set_other; exact Hk].
Qed.

Lemma flow_table_rows_witness :
  let v := JArr [JObj [("name", JStr "f"); ("statecode", JBool true)];
                 JObj [("name", JStr "g"); ("statecode", JNum 0)]] in
  let rows := JArr [JObj [("name", JStr "f"); ("statecode", JBool true);
                          ("state", JStr "Activated")];
                    JObj [("name", JStr "g"); ("statecode", JNum 0);
                          ("state", JStr "Draft")]] in
  Commands.show true v = inr (Commands.PrintTable rows Commands.table_columns) /\
  (Commands.table_columns = ["name"; "workflowid"; "state"; "modifiedon"] /\
   exists fs fs', v = JArr fs /\ rows = JArr fs' /\
     Forall2 (fun f f' => exists d d', f = JObj d /\ f' = JObj d' /\
                get d' "state" =
                  JStr (if py_eq (get d "statecode") (JNum 1)
                        then "Activated" else "Draft") /\
                (forall k, k <> "state" -> get d' k = get d k)) fs fs').
Proof.
  intros v rows.
  assert (H : Commands.show true v =
              inr (Commands.PrintTable rows Commands.table_columns)) by reflexivity.
  split; [exact H |].
  exact (flow_table_rows v rows Commands.table_columns H).
Defined.

(** X24: [solution list --table] shows the columns friendlyname,
    uniquename, version, managed over the "solutions" GET's list, one row
    per solution: the solution's dict with "managed" set to "Yes" when its
    ismanaged is truthy and "No" otherwise, all other keys kept. *)
Theorem list_solutions_table_rows
  (api_get : string -> Commands.params -> exn + json)
  (managed : option bool) (rows : json) (cols : list string)
  (H : fst (ReadCommands.list_solutions api_get managed true []) =
       inr (Commands.PrintTable rows cols)) :
  cols = ["friendlyname"; "uniquename"; "version"; "managed"] /\
  exists r l l',
    api_get "solutions" (ReadCommands.solutions_params managed) = inr r /\
    Commands.format_response r = JArr l /\ rows = JArr l' /\
    Forall2 (fun x x' => exists d d', x = JObj d /\ x' = JObj d' /\
               get d' "managed" =
                 JStr (if Json.truthy (get d "ismanaged") then "Yes" else "No") /\
               (forall k, k <> "managed" -> get d' k = get d k)) l l'.
Proof.
  unfold ReadCommands.list_solutions, Commands.bind, Commands.client_get,
    Commands.ret, Commands.lift, Commands.raise in H.
  destruct (api_get "solutions" (ReadCommands.solutions_params managed)) as [e|r]
    eqn:Ha; [discriminate |].
  cbn beta iota zeta in H.
  destruct (Commands.format_response r) as [| | | | l |] eqn:Hf; try discriminate.
  destruct (Commands.map_exn ReadCommands.add_managed l) as [e|l'] eqn:Hm;
    [discriminate |].
  injection H as <- <-. split; [reflexivity |].
  exists r, l, l'. split; [reflexivity | split; [exact Hf | split; [reflexivity |]]].
  apply map_exn_forall2 in Hm. eapply Forall2_impl; [| exact Hm].
  intros x x' Hx. destruct x as [| | | | | d]; try discriminate.
  injection Hx as <-. exists d; eexists. split; [reflexivity | split; [reflexivity |]].
  split; [apply get_set_same | intros k Hk; apply get_set_other; exact Hk].
Qed.

Lemma list_solutions_table_rows_witness :
  let sols := [JObj [("friendlyname", JStr "A"); ("ismanaged", JBool true)];
               JObj [("friendlyname", JStr "B"); ("ismanaged", JBool false)]] in
  let api := fun (_ : string) (_ : Commands.params) =>
               inr (JObj [("value", JArr sols)]) : exn + json in
  let rows := JArr [JObj [("friendlyname", JStr "A"); ("ismanaged", JBool true);
                          ("managed", JStr "Yes")];
                    JObj [("friendlyname", JStr "B"); ("ismanaged", JBool false);
                          ("managed", JStr "No")]] in
  let cols := ["friendlyname"; "uniquename"; "version"; "managed"] in
  fst (ReadCommands.list_solutions api None true []) =
    inr (Commands.PrintTable rows cols) /\
  (cols = ["friendlyname"; "uniquename"; "version"; "managed"] /\
   exists r l l',
     api "solutions" (ReadCommands.solutions_params None) = inr r /\
     Commands.format_response r = JArr l /\ rows = JArr l' /\
     Forall2 (fun x x' => exists d d', x = JObj d /\ x' = JObj d' /\
                get d' "managed" =
                  JStr (if Json.truthy (get d "ismanaged") then "Yes" else "No") /\
                (forall k, k <> "managed" -> get d' k = get d k)) l l').
Proof.
  intros sols api rows cols.
  assert (H : fst (ReadCommands.list_solutions api None true []) =
              inr (Commands.PrintTable rows cols)) by reflexivity.
  split; [exact H |].
  exact (list_solutions_table_rows api None rows cols H).
Defined.

(** ** commands/entity.py *)

(** X25: [entity query --table] prints a table only for a non-empty list
    whose first element is a dict; its columns are the first record's keys
    in order, cut to the first six, so never more than six. *)
Theorem query_table_columns
  (api_get : string -> Commands.params -> exn + json)
  (entity_name : string) (filter_query select orderby : option string)
  (top : option Z) (rows : json) (cols : list string)
  (H : fst (ReadCommands.query_entity api_get entity_name filter_query select
              orderby top true []) = inr (Commands.PrintTable rows cols)) :
  exists r d rest,
    api_get entity_name (ReadCommands.query_params filter_query select orderby top)
      = inr r /\
    Commands.format_response r = JArr (JObj d :: rest) /\
    rows = JArr (JObj d :: rest) /\
    cols = firstn 6 (map fst d) /\ (length cols <= 6)%nat.
Proof.
  unfold ReadCommands.query_entity, Commands.bind, Commands.client_get,
    Commands.ret, Commands.raise in H.
  destruct (api_get entity_name _) as [e|r] eqn:Ha; [discriminate |].
  cbn beta iota zeta in H.
  destruct (Commands.format_response r) as [| | | | l |] eqn:Hf; try discriminate.
  destruct l as [|x rest]; [discriminate |].
  destruct x as [| | | | | d]; try discriminate.
  exists r, d, rest. split; [reflexivity | split; [exact Hf |]]. cbn [fst] in H.
  destruct (Nat.ltb_spec 6 (length (map fst d))) as [Hlt|Hle];
    injection H as <- <-; (split; [reflexivity |]).
  - split; [reflexivity | exact (firstn_le_length 6 (map fst d))].
  - rewrite firstn_all2 by exact Hle. split; [reflexivity | exact Hle].
Qed.

Lemma query_table_columns_witness :
  let rec := [("a", JNum 1); ("b", JNum 2); ("c", JNum 3); ("d", JNum 4);
              ("e", JNum 5); ("f", JNum 6); ("g", JNum 7); ("h", JNum 8)] in
  let api := fun (_ : string) (_ : Commands.params) =>
               inr (JObj [("value", JArr [JObj rec])]) : exn + json in
  let cols := ["a"; "b"; "c"; "d"; "e"; "f"] in
  fst (ReadCommands.query_entity api "accounts" None None None (Some 10%Z) true []) =
    inr (Commands.PrintTable (JArr [JObj rec]) cols) /\
  exists r d rest,
    api "accounts" (ReadCommands.query_params None None None (Some 10%Z)) = inr r /\
    Commands.format_response r = JArr (JObj d :: rest) /\
    JArr [JObj rec] = JArr (JObj d :: rest) /\
    cols = firstn 6 (map fst d) /\ (length cols <= 6)%nat.
Proof.
  intros rec api cols.
  assert (H : fst (ReadCommands.query_entity api "accounts" None None None (Some 10%Z)
                     true []) = inr (Commands.PrintTable (JArr [JObj rec]) cols))
    by reflexivity.
  split; [exact H |].
  exact (query_table_columns api "accounts" None None None (Some 10%Z)
           (JArr [JObj rec]) cols H).
Defined.

(** ** commands/flow.py: the write commands *)

(** X26: [flow update] exits with code 1 and writes nothing when no field
    is given (all three empty or absent); otherwise it sends exactly one
    PATCH of the collected fields to workflows(ID); and [--state S] alone
    sends the same PATCH as [flow activate] when S lowercases to
    "activated", as [flow deactivate] otherwise (only the success message
    differs). *)
Theorem update_flow_cases
  (api_write : FlowWrites.write_call -> exn + json) (flow_id : string) :
  (forall name description state,
     Py.truthy name = false -> Py.truthy description = false ->
     Py.truthy state = false ->
     FlowWrites.update_flow api_write flow_id name description state =
       (inl (Commands.Exit 1), [])) /\
  (forall name description state,
     FlowWrites.update_data name description state <> [] ->
     snd (FlowWrites.update_flow api_write flow_id name description state) =
       [FlowWrites.WPatch (FlowWrites.flow_endpoint flow_id)
          (JObj (FlowWrites.update_data name description state))]) /\
  (forall s, s <> "" ->
     snd (FlowWrites.update_flow api_write flow_id None None (Some s)) =
       snd (if String.eqb (Py.lower s) "activated"
            then FlowWrites.activate_flow api_write flow_id
            else FlowWrites.deactivate_flow api_write flow_id)).
Proof.
  split; [| split].
  - intros n d st Hn Hd Hs. unfold FlowWrites.update_flow, FlowWrites.update_data.
    rewrite Hn, Hd, Hs. reflexivity.
  - intros n d st Hne. unfold FlowWrites.update_flow.
    destruct (FlowWrites.update_data n d st) as [|x xs]; [contradiction | reflexivity].
  - intros s Hs. unfold FlowWrites.update_flow, FlowWrites.update_data.
    rewrite (truthy_some s Hs). simpl Py.truthy. cbn [app Py.fmt_opt].
    destruct (String.eqb (Py.lower s) "activated"); reflexivity.
Qed.

(** X27: [flow create] accepts the trigger types "http" and "manual" in
    any letter case and exits with code 1, writing nothing, for any other;
    an accepted one sends exactly one POST to "workflows", whose record
    carries the given name, category 5 (modern flow), statecode 0 (draft)
    and the solution id exactly when [--solution-id] is non-empty. *)
Theorem create_flow_trigger_check
  (api_write : FlowWrites.write_call -> exn + json)
  (name trigger : string) (solution_id description : option string) :
  (Py.lower trigger <> "http" -> Py.lower trigger <> "manual" ->
   FlowWrites.create_flow api_write name trigger solution_id description =
     (inl (Commands.Exit 1), [])) /\
  (Py.lower trigger = "http" \/ Py.lower trigger = "manual" ->
   exists data,
     snd (FlowWrites.create_flow api_write name trigger solution_id description) =
       [FlowWrites.WPost "workflows" (JObj data)] /\
     get data "name" = JStr name /\ get data "category" = JNum 5 /\
     get data "statecode" = JNum 0 /\
     get data "solutionid" =
       (if Py.truthy solution_id then JStr (Py.fmt_opt solution_id) else JNull)).
Proof.
  split.
  - intros H1 H2. unfold FlowWrites.create_flow, FlowWrites.trigger_def.
    apply String.eqb_neq in H1, H2. rewrite H1, H2. reflexivity.
  - intro H.
    assert (Htd : exists td, FlowWrites.trigger_def trigger = Some td)
      by (unfold FlowWrites.trigger_def; destruct H as [H|H]; rewrite H;
          eexists; reflexivity).
    destruct Htd as [td Htd].
    unfold FlowWrites.create_flow. rewrite Htd. cbv zeta.
    exists (FlowWrites.flow_data name td solution_id description). split.
    + destruct (api_write _) as [e|[| | | | |]]; reflexivity.
    + unfold FlowWrites.flow_data. cbv zeta.
      destruct (Py.truthy description), (Py.truthy solution_id);
        repeat split;
        repeat (rewrite get_set_same || (rewrite get_set_other by discriminate));
        reflexivity.
Qed.

(** X28: composed with [DataverseClient.post]: when the POST of [flow
    create] is answered 204 with an OData-EntityId header [base(guid)]
    (no '(' in [base], no parenthesis in [guid]), the command prints
    [{"flow_id": guid, "name": name, "trigger": trigger}]. *)
Theorem create_flow_reports_created_id
  (send : request -> transport) (json_loads : string -> string + json)
  (c : Dv.DataverseClient) (api_write : FlowWrites.write_call -> exn + json)
  (name trigger : string) (solution_id description : option string)
  (r : response) (base guid : string)
  (Hw : forall ep d, api_write (FlowWrites.WPost ep d) =
                     Dv.result (Dv.post send json_loads c ep d))
  (Ht : Py.lower trigger = "http" \/ Py.lower trigger = "manual")
  (Hsend : forall rq, send rq = Resp r)
  (H204 : status_code r = 204%Z)
  (Hh : hget (resp_headers r) "OData-EntityId" = Some (base ++ "(" ++ guid ++ ")"))
  (Hbase : Py.contains "(" base = false)
  (Hg1 : Py.contains "(" guid = false)
  (Hg2 : Py.contains ")" guid = false) :
  fst (FlowWrites.create_flow api_write name trigger solution_id description) =
    inr (Commands.PrintJson (JObj [("flow_id", JStr guid); ("name", JStr name);
                                   ("trigger", JStr trigger)])).
Proof.
  assert (Htd : exists td, FlowWrites.trigger_def trigger = Some td)
    by (unfold FlowWrites.trigger_def; destruct Ht as [H|H]; rewrite H;
        eexists; reflexivity).
  destruct Htd as [td Htd].
  unfold FlowWrites.create_flow. rewrite Htd. cbv zeta.
  rewrite Hw, (post_204_entity_id_parse send json_loads c "workflows" _ r base guid
                 Hsend H204 Hh Hbase Hg1 Hg2).
  reflexivity.
Qed.

Lemma create_flow_reports_created_id_witness :
  let base := "https://org.crm.dynamics.com/api/data/v9.2/workflows" in
  let guid := "29e2253b-cabc-f011-bbd3-000d3a8ba54e" in
  let r := mkResponse 204 "" [("OData-EntityId", base ++ "(" ++ guid ++ ")")] in
  let send := fun _ : request => Resp r in
  let c := Dv.init "https://org.crm.dynamics.com" "tok" in
  let api_write := fun q : FlowWrites.write_call =>
                     match q with
                     | FlowWrites.WPost ep d => Dv.result (Dv.post send (fun _ => inl "") c ep d)
                     | _ => inr JNull
                     end in
  Py.lower "HTTP" = "http" /\
  hget (resp_headers r) "OData-EntityId" = Some (base ++ "(" ++ guid ++ ")") /\
  Py.contains "(" base = false /\ Py.contains "(" guid = false /\
  Py.contains ")" guid = false /\
  fst (FlowWrites.create_flow api_write "My Flow" "HTTP" None None) =
    inr (Commands.PrintJson (JObj [("flow_id", JStr guid); ("name", JStr "My Flow");
                                   ("trigger", JStr "HTTP")])).
Proof.
  intros base guid r send c api_write.
  do 5 (split; [vm_compute; reflexivity |]).
  exact (create_flow_reports_created_id send (fun _ => inl "") c api_write
           "My Flow" "HTTP" None None r base guid (fun _ _ => eq_refl)
           (or_introl eq_refl) (fun _ => eq_refl) eq_refl
           ltac:(vm_compute; reflexivity) ltac:(vm_compute; reflexivity)
           ltac:(vm_compute; reflexivity) ltac:(vm_compute; reflexivity)).
Defined.
